(** * AiPayingRent: the simulation engine of [script.js]

    A shallow embedding of the month-by-month simulation engine
    ([createAI], [runMonth] and its steps, [decisionEngine],
    [executeAction], [simulateMonth]) together with the properties the
    specification states about it.

    Modelling conventions.
    - The fields of an agent are JavaScript numbers that the program only
      ever adds, subtracts and multiplies, starting from finite literals
      and finite random draws; they are modelled as exact rationals [Q].
      Rounding and overflow of IEEE doubles are not modelled, so bounds
      are stated closed where rounding reaches the end point; the two
      expressions for which it does are also given in binary64
      ([sideHustleDraw64], [return_factor64]).
    - The one division of the program ([getContext]) can divide by zero;
      its result and the scores computed from it are modelled in [JS.num],
      the rationals extended with [Infinity], [-Infinity] and [NaN], with
      the IEEE rules for these special values (a zero divisor counts as +0).
    - [Math.random()] reads an injected tape of draws ([RNG]); each call
      consumes the head of the tape.  A tape is [uniform] when all of its
      draws lie in [0,1).
    - The global [economy] object is passed explicitly.
    - Chart, scoreboard and timer code is outside the engine: [updateUI]
      is modelled as the emission of the month's action map, and the chain
      of [setTimeout] callbacks as [simulate], the iteration of
      [simulateMonth].  The data that [updateUI] writes into the chart
      (labels and net-worth points) is modelled separately, in
      [updateUI_chart] and [simulate_chart]; the [innerHTML] panels are
      not. *)

From Corelib Require Import PrimFloat.
From Stdlib Require Import QArith Qminmax Lqa Bool String List.
From stdpp Require Import gmap strings pretty.
Import ListNotations.

Local Open Scope Q_scope.

(** ** Comparison of rationals as a boolean *)

Definition Qltb (a b : Q) : bool :=
  match a ?= b with
  | Lt => true
  | _ => false
  end.

(** ** JavaScript numbers *)

Module JS.

Inductive num : Type :=
| Num (q : Q)
| Infinity
| NegInfinity
| NaN.

Definition is_finite (x : num) : bool :=
  match x with
  | Num _ => true
  | _ => false
  end.

Definition is_nan (x : num) : bool :=
  match x with
  | NaN => true
  | _ => false
  end.

Definition neg (x : num) : num :=
  match x with
  | Num a => Num (- a)
  | Infinity => NegInfinity
  | NegInfinity => Infinity
  | NaN => NaN
  end.

Definition add (x y : num) : num :=
  match x, y with
  | NaN, _ | _, NaN => NaN
  | Num a, Num b => Num (a + b)
  | Infinity, NegInfinity | NegInfinity, Infinity => NaN
  | Infinity, _ | _, Infinity => Infinity
  | NegInfinity, _ | _, NegInfinity => NegInfinity
  end.

Definition sub (x y : num) : num := add x (neg y).

(** The infinity carrying the sign of [s], [NaN] when [s] is zero. *)
Definition signed_inf (s : comparison) : num :=
  match s with
  | Gt => Infinity
  | Lt => NegInfinity
  | Eq => NaN
  end.

Definition mul (x y : num) : num :=
  match x, y with
  | NaN, _ | _, NaN => NaN
  | Num a, Num b => Num (a * b)
  | Infinity, Num b | Num b, Infinity => signed_inf (b ?= 0)
  | NegInfinity, Num b | Num b, NegInfinity => signed_inf (0 ?= b)
  | Infinity, Infinity | NegInfinity, NegInfinity => Infinity
  | Infinity, NegInfinity | NegInfinity, Infinity => NegInfinity
  end.

Definition div (x y : num) : num :=
  match x, y with
  | NaN, _ | _, NaN => NaN
  | Num a, Num b =>
      if Qeq_bool b 0 then signed_inf (a ?= 0) else Num (a / b)
  | Num _, (Infinity | NegInfinity) => Num 0
  | Infinity, Num b => if Qltb b 0 then NegInfinity else Infinity
  | NegInfinity, Num b => if Qltb b 0 then Infinity else NegInfinity
  | (Infinity | NegInfinity), (Infinity | NegInfinity) => NaN
  end.

(** [x > y]; every comparison with [NaN] is false. *)
Definition gt (x y : num) : bool :=
  match x, y with
  | NaN, _ | _, NaN => false
  | Num a, Num b => Qltb b a
  | _, Infinity => false
  | Infinity, _ => true
  | NegInfinity, _ => false
  | Num _, NegInfinity => true
  end.

(** [x === y] on numbers; [NaN] equals nothing. *)
Definition eqb (x y : num) : bool :=
  match x, y with
  | Num a, Num b => Qeq_bool a b
  | Infinity, Infinity | NegInfinity, NegInfinity => true
  | _, _ => false
  end.

Coercion Num : Q >-> num.

Declare Scope js_scope.
Delimit Scope js_scope with js.
Bind Scope js_scope with num.
Infix "+" := add : js_scope.
Infix "-" := sub : js_scope.
Infix "*" := mul : js_scope.
Infix "/" := div : js_scope.
Infix ">" := gt : js_scope.

End JS.

Import JS.

(** ** The random source *)

(** The draws that the successive calls of [Math.random()] return. *)
Definition RNG : Type := nat -> Q.

(** One call of [Math.random()]: the head of the tape and the rest. *)
Definition random (g : RNG) : Q * RNG := (g 0%nat, fun n => g (S n)).

(** Every draw lies in [0,1). *)
Definition uniform (g : RNG) : Prop := forall n : nat, 0 <= g n /\ g n < 1.

(** The tape on which every draw is [u]. *)
Definition constant_rng (u : Q) : RNG := fun _ => u.

(** ** Economy and agents *)

Record Economy : Type := { recession : bool }.

(** [const economy = { recession: true }] *)
Definition economy : Economy := {| recession := true |}.

Record Business : Type := { revenue : Q }.

Record Agent : Type := {
  name : string;
  color : string;
  cash : Q;
  salary : Q;
  rent : Q;
  food : Q;
  otherExpenses : Q;
  investments : Q;
  riskTolerance : Q;
  discipline : Q;
  intelligence : Q;
  stress : Q;
  employed : bool;
  sideHustle : bool;
  business : option Business;
  alive : bool
}.

(** Assignments to the fields that the program writes. *)

Definition set_cash (v : Q) (ai : Agent) : Agent :=
  {| name := name ai; color := color ai; cash := v; salary := salary ai;
     rent := rent ai; food := food ai; otherExpenses := otherExpenses ai;
     investments := investments ai; riskTolerance := riskTolerance ai;
     discipline := discipline ai; intelligence := intelligence ai;
     stress := stress ai; employed := employed ai;
     sideHustle := sideHustle ai; business := business ai;
     alive := alive ai |}.

Definition set_investments (v : Q) (ai : Agent) : Agent :=
  {| name := name ai; color := color ai; cash := cash ai; salary := salary ai;
     rent := rent ai; food := food ai; otherExpenses := otherExpenses ai;
     investments := v; riskTolerance := riskTolerance ai;
     discipline := discipline ai; intelligence := intelligence ai;
     stress := stress ai; employed := employed ai;
     sideHustle := sideHustle ai; business := business ai;
     alive := alive ai |}.

Definition set_stress (v : Q) (ai : Agent) : Agent :=
  {| name := name ai; color := color ai; cash := cash ai; salary := salary ai;
     rent := rent ai; food := food ai; otherExpenses := otherExpenses ai;
     investments := investments ai; riskTolerance := riskTolerance ai;
     discipline := discipline ai; intelligence := intelligence ai;
     stress := v; employed := employed ai;
     sideHustle := sideHustle ai; business := business ai;
     alive := alive ai |}.

Definition set_employed (v : bool) (ai : Agent) : Agent :=
  {| name := name ai; color := color ai; cash := cash ai; salary := salary ai;
     rent := rent ai; food := food ai; otherExpenses := otherExpenses ai;
     investments := investments ai; riskTolerance := riskTolerance ai;
     discipline := discipline ai; intelligence := intelligence ai;
     stress := stress ai; employed := v;
     sideHustle := sideHustle ai; business := business ai;
     alive := alive ai |}.

Definition set_business (v : option Business) (ai : Agent) : Agent :=
  {| name := name ai; color := color ai; cash := cash ai; salary := salary ai;
     rent := rent ai; food := food ai; otherExpenses := otherExpenses ai;
     investments := investments ai; riskTolerance := riskTolerance ai;
     discipline := discipline ai; intelligence := intelligence ai;
     stress := stress ai; employed := employed ai;
     sideHustle := sideHustle ai; business := v;
     alive := alive ai |}.

Definition set_alive (v : bool) (ai : Agent) : Agent :=
  {| name := name ai; color := color ai; cash := cash ai; salary := salary ai;
     rent := rent ai; food := food ai; otherExpenses := otherExpenses ai;
     investments := investments ai; riskTolerance := riskTolerance ai;
     discipline := discipline ai; intelligence := intelligence ai;
     stress := stress ai; employed := employed ai;
     sideHustle := sideHustle ai; business := business ai;
     alive := v |}.

(** [createAI(name, riskTolerance, discipline, intelligence, color)] *)
Definition createAI (nm : string) (rt d i : Q) (col : string) : Agent :=
  {| name := nm;
     color := col;
     cash := 5000;
     salary := 2000;
     rent := 800;
     food := 400;
     otherExpenses := 300;
     investments := 0;
     riskTolerance := rt;
     discipline := d;
     intelligence := i;
     stress := 0;
     employed := true;
     sideHustle := false;
     business := None;
     alive := true |}.

(** The population of the script. *)
Definition agents0 : list Agent :=
  [ createAI "Conservative" 0.2 0.9 0.8 "#4caf50";
    createAI "Balanced" 0.5 0.7 0.8 "#2196f3";
    createAI "Risky" 0.9 0.3 0.7 "#ff9800" ].

Definition TOTAL_MONTHS : nat := 60.

(** ** The steps of a month *)

(** [processIncome]: salary, side hustle (one draw, only when the flag is
    set), business revenue. *)
Definition processIncome (ai : Agent) (g : RNG) : Agent * RNG :=
  let ai := if employed ai then set_cash (cash ai + salary ai) ai else ai in
  let '(ai, g) :=
    if sideHustle ai then
      let '(u, g) := random g in
      (set_cash (cash ai + (300 + u * 400)) ai, g)
    else (ai, g) in
  let ai :=
    match business ai with
    | Some b => set_cash (cash ai + revenue b) ai
    | None => ai
    end in
  (ai, g).

(** [processExpenses] *)
Definition processExpenses (ai : Agent) : Agent :=
  set_cash (cash ai - (rent ai + food ai + otherExpenses ai)) ai.

(** The branch of [randomEvents] that a draw selects: the conditions of
    the [if / else if] chain, in the order of the source. *)
Inductive Event : Type :=
| RecessionJobLoss
| JobLoss
| UnexpectedExpense
| NoEvent.

Definition fired_branch (econ : Economy) (r : Q) : Event :=
  if recession econ && Qltb r 0.08 then RecessionJobLoss
  else if Qltb r 0.03 then JobLoss
  else if Qltb r 0.06 then UnexpectedExpense
  else NoEvent.

(** [randomEvents]: one draw, a chain of [if / else if]. *)
Definition randomEvents (econ : Economy) (ai : Agent) (g : RNG) : Agent * RNG :=
  let '(r, g) := random g in
  if recession econ && Qltb r 0.08 then
    let ai := set_employed false ai in
    (set_stress (stress ai + 20) ai, g)
  else if Qltb r 0.03 then
    let ai := set_employed false ai in
    (set_stress (stress ai + 20) ai, g)
  else if Qltb r 0.06 then
    (set_cash (cash ai - 2000) ai, g)
  else (ai, g).

Record Context : Type := { emergencyMonths : num }.

(** [getContext]: the quotient is a JavaScript division, with no guard. *)
Definition getContext (ai : Agent) : Context :=
  let expenses := rent ai + food ai + otherExpenses ai in
  {| emergencyMonths := (Num (cash ai) / Num expenses)%js |}.

(** How a call ends: with a value, or with a thrown error. *)
Inductive completion (A : Type) : Type :=
| Normal (a : A)
| Throw (msg : string).
Arguments Normal {A} a.
Arguments Throw {A} msg.

(** A call of [getContext].  Its body has no [throw], and [+] and [/] on
    numbers never throw, so every call completes normally. *)
Definition getContext_call (ai : Agent) : completion Context :=
  Normal (getContext ai).

(** ** Scoring and decision *)

(** Truthiness of a field that holds an object or [null]. *)
Definition truthy {A : Type} (o : option A) : bool :=
  match o with
  | Some _ => true
  | None => false
  end.

Inductive Action : Type := save | invest | start_business | job_search.

Definition Action_eqb (a b : Action) : bool :=
  match a, b with
  | save, save | invest, invest
  | start_business, start_business | job_search, job_search => true
  | _, _ => false
  end.

(** The property name of an action, as the script spells it. *)
Definition label (a : Action) : string :=
  match a with
  | save => "save"
  | invest => "invest"
  | start_business => "start_business"
  | job_search => "job_search"
  end.

(** The [scores] object: a number per key. *)
Definition Scores : Type := Action -> num.

(** [Object.keys(scores)]: the keys in insertion order. *)
Definition keys : list Action := [save; invest; start_business; job_search].

(** [scores[k] = v] *)
Definition set_score (k : Action) (v : num) (sc : Scores) : Scores :=
  fun k' => if Action_eqb k' k then v else sc k'.

(** The object literal of [decisionEngine], before the jitter. *)
Definition base_scores (ai : Agent) (context : Context) : Scores :=
  let em := emergencyMonths context in
  fun k =>
    match k with
    | save =>
        ((3 - em) * 20 + discipline ai * 10 - riskTolerance ai * 5)%js
    | invest =>
        if (em > 3)%js then (em * 5 + discipline ai * 10)%js
        else Num (-100)
    | start_business =>
        if Qltb 5000 (cash ai) && negb (truthy (business ai))
        then Num (riskTolerance ai * 30)
        else Num (-100)
    | job_search =>
        if negb (employed ai) then Num 100 else Num (-100)
    end.

(** [keys.forEach((k) => { scores[k] += (Math.random() - 0.5) * 5; })] *)
Fixpoint add_jitter (ks : list Action) (sc : Scores) (g : RNG) : Scores * RNG :=
  match ks with
  | [] => (sc, g)
  | k :: ks' =>
      let '(u, g) := random g in
      add_jitter ks' (set_score k (sc k + Num ((u - 0.5) * 5))%js sc) g
  end.

(** [Array.prototype.reduce] without an initial value, on the array
    [a :: rest]. *)
Definition reduce {A : Type} (f : A -> A -> A) (a : A) (rest : list A) : A :=
  fold_left f rest a.

(** The callback of the [reduce] in [decisionEngine]. *)
Definition better (sc : Scores) (a b : Action) : Action :=
  if (sc a > sc b)%js then a else b.

(** [Object.keys(scores).reduce((a, b) => scores[a] > scores[b] ? a : b)] *)
Definition pick_best (sc : Scores) : Action :=
  match keys with
  | [] => save
  | a :: rest => reduce (better sc) a rest
  end.

(** [executeAction]: a [switch] with no case for ["save"]. *)
Definition executeAction (ai : Agent) (action : Action) : Agent :=
  match action with
  | invest =>
      let amount := cash ai * 0.2 in
      let ai := set_investments (investments ai + amount) ai in
      set_cash (cash ai - amount) ai
  | start_business =>
      let ai := set_cash (cash ai - 5000) ai in
      set_business (Some {| revenue := 1000 |}) ai
  | job_search => set_employed true ai
  | save => ai
  end.

(** The scores of [decisionEngine] after the jitter, and the tape left. *)
Definition jittered_scores (ai : Agent) (g : RNG) : Scores * RNG :=
  add_jitter keys (base_scores ai (getContext ai)) g.

(** [decisionEngine] *)
Definition decisionEngine (ai : Agent) (g : RNG) : Action * Agent * RNG :=
  let context := getContext ai in
  let scores := base_scores ai context in
  let '(scores, g) := add_jitter keys scores g in
  let best := pick_best scores in
  (best, executeAction ai best, g).

(** [applyInvestments] *)
Definition applyInvestments (ai : Agent) (g : RNG) : Agent * RNG :=
  let '(u, g) := random g in
  let returnRate := (u - 0.5) * 0.1 in
  (set_investments (investments ai * (1 + returnRate)) ai, g).

(** [updateStress] *)
Definition updateStress (ai : Agent) : Agent :=
  let ai :=
    if Qltb (cash ai) (rent ai) then set_stress (stress ai + 15) ai else ai in
  set_stress (Qmax 0 (stress ai - 5)) ai.

(** [runMonth] *)
Definition runMonth (econ : Economy) (ai : Agent) (g : RNG)
  : Action * Agent * RNG :=
  let '(ai, g) := processIncome ai g in
  let ai := processExpenses ai in
  let '(ai, g) := randomEvents econ ai g in
  let '(action, ai, g) := decisionEngine ai g in
  let '(ai, g) := applyInvestments ai g in
  let ai := updateStress ai in
  let ai := if Qltb (cash ai) 0 then set_alive false ai else ai in
  (action, ai, g).

(** ** The population driver *)

(** The [actions] object of [simulateMonth]: a label per agent name. *)
Abbreviation ActionMap := (gmap string string).

(** The callback of [agents.forEach] in [simulateMonth], for one agent. *)
Definition simulateAgent (econ : Economy) (ai : Agent)
    (actions : ActionMap) (g : RNG) : Agent * ActionMap * RNG :=
  if alive ai then
    let '(action, ai', g') := runMonth econ ai g in
    (ai', <[name ai := label action]> actions, g')
  else
    (ai, <[name ai := "BANKRUPT"%string]> actions, g).

(** [agents.forEach(...)], in population order. *)
Fixpoint forEach_agent (econ : Economy) (ags : list Agent)
    (actions : ActionMap) (g : RNG) : list Agent * ActionMap * RNG :=
  match ags with
  | [] => ([], actions, g)
  | ai :: rest =>
      let '(ai', actions, g) := simulateAgent econ ai actions g in
      let '(rest', actions, g) := forEach_agent econ rest actions g in
      (ai' :: rest', actions, g)
  end.

(** The mutable globals of the driver. *)
Record Sim : Type := {
  currentMonth : nat;
  agents : list Agent
}.

Definition initial_sim : Sim := {| currentMonth := 0; agents := agents0 |}.

(** [simulateMonth]: [None] when the end condition returns at once,
    otherwise the action map handed to [updateUI]. *)
Definition simulateMonth (econ : Economy) (s : Sim) (g : RNG)
  : option ActionMap * Sim * RNG :=
  if (TOTAL_MONTHS <=? currentMonth s)%nat then (None, s, g)
  else
    let month := S (currentMonth s) in
    let '(ags, actions, g) := forEach_agent econ (agents s) ∅ g in
    (Some actions, {| currentMonth := month; agents := ags |}, g).

(** The chain of timer callbacks: [simulateMonth] reschedules itself
    unless the end condition returned.  [n] bounds the number of calls;
    the result lists the emitted (month, action map) pairs in order. *)
Fixpoint simulate (econ : Economy) (n : nat) (s : Sim) (g : RNG)
  : list (nat * ActionMap) * Sim * RNG :=
  match n with
  | O => ([], s, g)
  | S n' =>
      match simulateMonth econ s g with
      | (None, s', g') => ([], s', g')
      | (Some actions, s', g') =>
          let '(out, s'', g'') := simulate econ n' s' g' in
          ((currentMonth s', actions) :: out, s'', g'')
      end
  end.

(** ** Reachable agent states *)

(** [evolves econ ai ai']: the driver can take the agent from [ai] to
    [ai'] in zero or more months.  The driver runs [runMonth] only on
    agents that are alive, with draws in [0,1). *)
Inductive evolves (econ : Economy) (ai : Agent) : Agent -> Prop :=
| evolves_refl : evolves econ ai ai
| evolves_month (ai' : Agent) (g : RNG) :
    evolves econ ai ai' ->
    alive ai' = true ->
    uniform g ->
    evolves econ ai (runMonth econ ai' g).1.2.

(** The states an agent built by [createAI] can reach. *)
Definition reachable (econ : Economy) (ai : Agent) : Prop :=
  exists (nm : string) (rt d i : Q) (col : string),
    evolves econ (createAI nm rt d i col) ai.

(** The range of the behavioural traits used in scoring. *)
Definition traits_in_range (ai : Agent) : Prop :=
  (0 <= riskTolerance ai /\ riskTolerance ai <= 1) /\
  (0 <= discipline ai /\ discipline ai <= 1).

Definition fixed_costs (ai : Agent) : Q :=
  rent ai + food ai + otherExpenses ai.

(** The side-hustle amount that [processIncome] computes from a draw. *)
Definition sideHustleDraw (u : Q) : Q := 300 + u * 400.


(** The largest double below 1, [1 - 2^-53]. *)
Definition largest_draw : float := 0x1.fffffffffffffp-1%float.

(** The jitter that [decisionEngine] computes from a draw. *)
Definition jitter (u : Q) : Q := (u - 0.5) * 5.

(** The position of a key in [keys]; the draw at this position of the
    tape is the one its jitter uses. *)
Definition position (a : Action) : nat :=
  match a with
  | save => 0
  | invest => 1
  | start_business => 2
  | job_search => 3
  end.

(** [ai'] differs from [ai] at most in [employed] and [stress]. *)
Definition same_but_employed_stress (ai ai' : Agent) : Prop :=
  name ai' = name ai /\ color ai' = color ai /\ cash ai' = cash ai /\
  salary ai' = salary ai /\ rent ai' = rent ai /\ food ai' = food ai /\
  otherExpenses ai' = otherExpenses ai /\
  investments ai' = investments ai /\
  riskTolerance ai' = riskTolerance ai /\ discipline ai' = discipline ai /\
  intelligence ai' = intelligence ai /\ sideHustle ai' = sideHustle ai /\
  business ai' = business ai /\ alive ai' = alive ai.


(** An agent with every income source: employed, with a side hustle and
    a business. *)
Definition busy_agent : Agent :=
  set_business (Some {| revenue := 1000 |})
    {| name := "Busy"; color := "#ffffff"; cash := 5000; salary := 2000;
       rent := 800; food := 400; otherExpenses := 300; investments := 0;
       riskTolerance := 0.5; discipline := 0.7; intelligence := 0.8;
       stress := 0; employed := true; sideHustle := true;
       business := None; alive := true |}.

(** The fields that no statement of the program assigns after
    [createAI]. *)
Definition static_part (ai : Agent)
  : string * string * Q * Q * Q * Q * Q * Q * Q * bool :=
  (name ai, color ai, salary ai, rent ai, food ai, otherExpenses ai,
   riskTolerance ai, discipline ai, intelligence ai, sideHustle ai).

(** ** The tie-break, in the words of the specification *)

(** No other action's score exceeds the score of [a]. *)
Definition not_exceeded (sc : Scores) (a : Action) : bool :=
  forallb (fun b => negb (sc b > sc a)%js) keys.

(** The first action encountered, in the enumeration order, with a score
    not exceeded by any other. *)
Definition first_not_exceeded (sc : Scores) : option Action :=
  find (not_exceeded sc) keys.

(** The last action, in the enumeration order, with a score not exceeded
    by any other. *)
Definition last_not_exceeded (sc : Scores) : option Action :=
  find (not_exceeded sc) (rev keys).

(** Two distinct actions share the maximal score. *)
Definition tied_at_max (sc : Scores) (a b : Action) : bool :=
  negb (Action_eqb a b) && not_exceeded sc a && not_exceeded sc b
  && JS.eqb (sc a) (sc b).

(** ** Sample agents *)

(** An agent whose fixed costs are all zero. *)
Definition rent_free_agent : Agent :=
  {| name := "RentFree"; color := "#000000"; cash := 5000; salary := 2000;
     rent := 0; food := 0; otherExpenses := 0; investments := 0;
     riskTolerance := 0.5; discipline := 0.7; intelligence := 0.8;
     stress := 0; employed := true; sideHustle := false;
     business := None; alive := true |}.

(** An employed agent with cash 6000 and costs 1500 (four months of
    runway) and both traits at 1: before the jitter, [invest] scores
    4 * 5 + 1 * 10 = 30 and [start_business] scores 1 * 30 = 30. *)
Definition tie_agent : Agent :=
  set_cash 6000 (createAI "Tie" 1 1 1 "#ffffff").

(** The scenario agent: unemployed, cash 100, costs 1500, no business. *)
Definition scenario_agent : Agent :=
  set_employed false (set_cash 100 (createAI "Balanced" 0.5 0.7 0.8 "#2196f3")).

(** An agent after its first month, in which it founds a business. *)
Definition founder : Agent :=
  (runMonth economy (createAI "Founder" 1 0 0.5 "#9c27b0")
     (constant_rng 0.5)).1.2.

(** A population with a living agent and a bankrupt one. *)
Definition bankrupt_agent : Agent :=
  set_alive false (set_cash (-300) (createAI "Risky" 0.9 0.3 0.7 "#ff9800")).

Definition sample_sim : Sim :=
  {| currentMonth := 0;
     agents := [createAI "Balanced" 0.5 0.7 0.8 "#2196f3"; bankrupt_agent] |}.

(** ** Net worth and the chart *)

(** [ai.cash + ai.investments], the figure the chart and the scoreboard
    show. *)
Definition netWorth (ai : Agent) : Q := cash ai + investments ai.

(** The change of cash that an action makes, on the cash [c] at the time
    of the decision. *)
Definition action_cash (a : Action) (c : Q) : Q :=
  match a with
  | invest => c - c * 0.2
  | start_business => c - 5000
  | save | job_search => c
  end.

(** One entry of [chart.data.datasets]. *)
Record Dataset : Type := {
  ds_label : string;
  data : list Q;
  borderColor : string;
  tension : Q
}.

(** [chart.data]: the month labels and one dataset per agent. *)
Record ChartData : Type := {
  labels : list string;
  datasets : list Dataset
}.

(** The [data] of [new Chart(ctx, ...)]: no label, and for every agent a
    dataset with its name, its color and no point. *)
Definition new_chart (ags : list Agent) : ChartData :=
  {| labels := [];
     datasets :=
       map (fun ai => {| ds_label := name ai; data := [];
                         borderColor := color ai; tension := 0.3 |}) ags |}.

(** [d.data.push(v)] *)
Definition push_point (v : Q) (d : Dataset) : Dataset :=
  {| ds_label := ds_label d; data := data d ++ [v];
     borderColor := borderColor d; tension := tension d |}.

(** [agents.forEach((ai, i) => { chart.data.datasets[i].data.push(
    ai.cash + ai.investments); })], from index [i] on.  Reading [data] of
    a dataset that does not exist throws a [TypeError]. *)
Fixpoint push_net_worths (ags : list Agent) (i : nat) (ds : list Dataset)
  : completion (list Dataset) :=
  match ags with
  | [] => Normal ds
  | ai :: rest =>
      match ds !! i with
      | None => Throw "TypeError"
      | Some d =>
          push_net_worths rest (S i) (<[i := push_point (netWorth ai) d]> ds)
      end
  end.

(** The part of [updateUI] that writes [chart.data]: the label of the
    month, then one point per agent.  ([chart.update()] and the three
    [innerHTML] panels are display only and are not modelled.) *)
Definition updateUI_chart (s : Sim) (chart : ChartData)
  : completion ChartData :=
  let labels' := labels chart ++ ["M" +:+ pretty (currentMonth s)] in
  match push_net_worths (agents s) 0 (datasets chart) with
  | Normal ds => Normal {| labels := labels'; datasets := ds |}
  | Throw e => Throw e
  end.

(** The chain of timer callbacks with the chart: each [simulateMonth]
    that passes the end condition calls [updateUI] on the new state before
    it reschedules itself; an error ends the chain. *)
Fixpoint simulate_chart (econ : Economy) (n : nat) (s : Sim)
    (chart : ChartData) (g : RNG) : completion (Sim * ChartData * RNG) :=
  match n with
  | O => Normal (s, chart, g)
  | S n' =>
      match simulateMonth econ s g with
      | (None, s', g') => Normal (s', chart, g')
      | (Some _, s', g') =>
          match updateUI_chart s' chart with
          | Normal chart' => simulate_chart econ n' s' chart' g'
          | Throw e => Throw e
          end
      end
  end.

(** Every dataset has one point per label, and there is one dataset per
    agent. *)
Definition chart_aligned (ags : list Agent) (chart : ChartData) : Prop :=
  length (datasets chart) = length ags /\
  Forall (fun d => length (data d) = length (labels chart)) (datasets chart).

(** The agent and the tape on which [runMonth] calls [decisionEngine]:
    after income, expenses and the random event. *)
Definition decision_state (econ : Economy) (ai : Agent) (g : RNG)
  : Agent * RNG :=
  randomEvents econ (processExpenses (processIncome ai g).1)
    (processIncome ai g).2.

(** The factor by which [applyInvestments] multiplies, from its draw. *)
Definition return_factor (u : Q) : Q := 1 + (u - 0.5) * 0.1.

(** The same factor, [1 + (Math.random() - 0.5) * 0.1], in binary64. *)
#[warnings="-inexact-float"]
Definition return_factor64 (u : float) : float :=
  (1 + (u - 0.5) * 0.1)%float.

(** The labels that an entry of the action map can hold. *)
Definition action_labels : list string :=
  map label keys ++ ["BANKRUPT"%string].

(** The last point of every dataset is the net worth of its agent. *)
Definition chart_current (ags : list Agent) (chart : ChartData) : Prop :=
  Forall2 (fun ai d => last (data d) = Some (netWorth ai))
    ags (datasets chart).

(** The number of draws that one [runMonth] of the agent consumes. *)
Definition draws_per_month (ai : Agent) : nat :=
  if sideHustle ai then 7 else 6.

(** An agent in the middle of its life: unemployed after a job loss,
    with some investments and stress. *)
Definition veteran : Agent :=
  set_stress 40 (set_investments 1200 (set_employed false
    (set_cash 3000 (createAI "Balanced" 0.5 0.7 0.8 "#2196f3")))).

(** ** Basic facts *)

Lemma Qltb_true (a b : Q) : Qltb a b = true <-> a < b.
Proof.
  unfold Qltb. rewrite Qlt_alt. destruct (a ?= b); split; congruence.
Qed.

Lemma Qltb_false (a b : Q) : Qltb a b = false <-> b <= a.
Proof.
  rewrite <- not_true_iff_false, Qltb_true. split; intros; lra.
Qed.

(** Turn the boolean comparisons of the context into inequalities. *)
Ltac qbool :=
  repeat match goal with
    | H : Qltb _ _ = true |- _ => apply Qltb_true in H
    | H : Qltb _ _ = false |- _ => apply Qltb_false in H
    | |- Qltb _ _ = true => apply Qltb_true
    | |- Qltb _ _ = false => apply Qltb_false
    end.

(** ** The event model *)

Lemma fired_branch_recession (econ : Economy) (r : Q) :
  recession econ = true ->
  fired_branch econ r = if Qltb r 0.08 then RecessionJobLoss else NoEvent.
Proof.
  intros Hrec. unfold fired_branch. rewrite Hrec. cbn.
  destruct (Qltb r 0.08) eqn:E8; [reflexivity|].
  destruct (Qltb r 0.03) eqn:E3; [qbool; lra|].
  destruct (Qltb r 0.06) eqn:E6; [qbool; lra|].
  reflexivity.
Qed.

(** [randomEvents] applies the effect of the one branch that fired. *)
Lemma randomEvents_fired (econ : Economy) (ai : Agent) (g : RNG) :
  (randomEvents econ ai g).1 =
    match fired_branch econ (g 0%nat) with
    | RecessionJobLoss | JobLoss =>
        set_stress (stress ai + 20) (set_employed false ai)
    | UnexpectedExpense => set_cash (cash ai - 2000) ai
    | NoEvent => ai
    end.
Proof.
  unfold randomEvents, fired_branch, random.
  destruct (recession econ && Qltb (g 0%nat) 0.08); [reflexivity|].
  destruct (Qltb (g 0%nat) 0.03); [reflexivity|].
  destruct (Qltb (g 0%nat) 0.06); reflexivity.
Qed.

Lemma randomEvents_tape (econ : Economy) (ai : Agent) (g : RNG) :
  (randomEvents econ ai g).2 = (random g).2.
Proof.
  unfold randomEvents, random.
  destruct (recession econ && Qltb (g 0%nat) 0.08); [reflexivity|].
  destruct (Qltb (g 0%nat) 0.03); [reflexivity|].
  destruct (Qltb (g 0%nat) 0.06); reflexivity.
Qed.

(** C3. [randomEvents] consumes one draw [r] and applies the effect of
    the one branch that fires, the first in priority order whose condition
    holds.  Under a recession the agent loses the job and gains 20 stress
    exactly when [r < 0.08] (through the recession branch), otherwise the
    agent is unchanged; the non-recession job-loss branch [r < 0.03] never
    fires. *)
Theorem randomEvents_recession_priority
    (econ : Economy) (ai : Agent) (g : RNG) :
  let r := g 0%nat in
  let ai' := (randomEvents econ ai g).1 in
  (randomEvents econ ai g).2 = (random g).2 /\
  ai' = match fired_branch econ r with
        | RecessionJobLoss | JobLoss =>
            set_stress (stress ai + 20) (set_employed false ai)
        | UnexpectedExpense => set_cash (cash ai - 2000) ai
        | NoEvent => ai
        end /\
  (recession econ = true ->
     fired_branch econ r <> JobLoss /\
     (r < 0.08 ->
        fired_branch econ r = RecessionJobLoss /\
        ai' = set_stress (stress ai + 20) (set_employed false ai) /\
        employed ai' = false /\ stress ai' = stress ai + 20) /\
     (0.08 <= r ->
        fired_branch econ r = NoEvent /\ ai' = ai)).
Proof.
  intros r ai'. subst ai' r.
  split; [apply randomEvents_tape|]. split; [apply randomEvents_fired|].
  intros Hrec.
  rewrite randomEvents_fired, (fired_branch_recession _ _ Hrec).
  generalize (g 0%nat). intros r.
  destruct (Qltb r 0.08) eqn:E8; qbool.
  - split; [discriminate|]. split.
    + intros _. cbn. auto.
    + intros Hge. lra.
  - split; [discriminate|]. split.
    + intros Hlt. lra.
    + intros _. auto.
Qed.

Lemma randomEvents_recession_priority_witness :
  recession economy = true /\
  fired_branch economy (constant_rng 0.05 0%nat) <> JobLoss.
Proof.
  split; [reflexivity|].
  destruct (randomEvents_recession_priority economy
              (createAI "Balanced" 0.5 0.7 0.8 "#2196f3") (constant_rng 0.05))
    as (_ & _ & Hrec).
  apply Hrec. reflexivity.
Defined.

(** C7. Under a recession [randomEvents] never changes cash: the
    unexpected-expense band [r < 0.06] lies inside the recession job-loss
    band [r < 0.08], so only [employed] and [stress] can differ afterwards;
    whenever [randomEvents] does change cash (by the 2000 deduction), the
    recession flag is false. *)
Theorem randomEvents_recession_keeps_cash
    (econ : Economy) (ai : Agent) (g : RNG) :
  let ai' := (randomEvents econ ai g).1 in
  (recession econ = true ->
     fired_branch econ (g 0%nat) <> UnexpectedExpense /\
     cash ai' = cash ai /\
     same_but_employed_stress ai ai') /\
  (cash ai' <> cash ai ->
     recession econ = false /\
     fired_branch econ (g 0%nat) = UnexpectedExpense /\
     cash ai' = cash ai - 2000).
Proof.
  intros ai'. subst ai'. rewrite randomEvents_fired. split.
  - intros Hrec. rewrite (fired_branch_recession _ _ Hrec).
    destruct (Qltb (g 0%nat) 0.08);
      (split; [discriminate|]); cbn; unfold same_but_employed_stress; cbn;
      repeat split.
  - destruct (recession econ) eqn:Hrec.
    + rewrite (fired_branch_recession _ _ Hrec).
      destruct (Qltb (g 0%nat) 0.08); cbn; congruence.
    + destruct (fired_branch econ (g 0%nat)); cbn; intros Hne;
        try congruence; repeat split.
Qed.

Lemma randomEvents_recession_keeps_cash_witness :
  recession economy = true /\
  cash (randomEvents economy busy_agent (constant_rng 0.05)).1
    = cash busy_agent.
Proof.
  split; [reflexivity|].
  apply (randomEvents_recession_keeps_cash economy busy_agent
           (constant_rng 0.05)).
  reflexivity.
Defined.

(** ** Income *)


(** The cash after [processIncome], one term per income source. *)
Lemma processIncome_cash (ai : Agent) (g : RNG) :
  cash (processIncome ai g).1 ==
    cash ai
    + (if employed ai then salary ai else 0)
    + (if sideHustle ai then sideHustleDraw (g 0%nat) else 0)
    + match business ai with Some b => revenue b | None => 0 end.
Proof.
  unfold processIncome, random, sideHustleDraw.
  destruct ai as [nm col c sal r f o inv rt d i st emp sh bus al]; cbn.
  destruct emp, sh, bus as [b|]; cbn; lra.
Qed.




(** ** The decision engine, unfolded *)

Lemma jittered_scores_at (ai : Agent) (g : RNG) (a : Action) :
  (jittered_scores ai g).1 a =
    (base_scores ai (getContext ai) a + Num (jitter (g (position a))))%js.
Proof. destruct a; reflexivity. Qed.

Lemma jittered_scores_tape (ai : Agent) (g : RNG) :
  (jittered_scores ai g).2 = fun n => g (4 + n)%nat.
Proof. reflexivity. Qed.

Lemma decisionEngine_unfold (ai : Agent) (g : RNG) :
  decisionEngine ai g =
    let sc := (jittered_scores ai g).1 in
    (pick_best sc, executeAction ai (pick_best sc), (jittered_scores ai g).2).
Proof. reflexivity. Qed.

Lemma decisionEngine_tape (ai : Agent) (g : RNG) :
  (decisionEngine ai g).2 = fun n => g (4 + n)%nat.
Proof. reflexivity. Qed.

Lemma decisionEngine_executes (ai : Agent) (g : RNG) :
  (decisionEngine ai g).1.2 = executeAction ai (decisionEngine ai g).1.1.
Proof. rewrite decisionEngine_unfold. cbn zeta. cbn [fst snd]. reflexivity. Qed.

Lemma jitter_range (u : Q) :
  0 <= u -> u < 1 -> -2.5 <= jitter u /\ jitter u < 2.5.
Proof. unfold jitter. intros; split; lra. Qed.

(** ** What each step leaves alone *)

Lemma processIncome_frame (ai : Agent) (g : RNG) :
  set_cash (cash (processIncome ai g).1) ai = (processIncome ai g).1.
Proof.
  unfold processIncome, random.
  destruct ai as [nm col c sal r f o inv rt d i st emp sh bus al]; cbn.
  destruct emp, sh, bus as [b|]; reflexivity.
Qed.

Lemma randomEvents_frame (econ : Economy) (ai : Agent) (g : RNG) :
  let ai' := (randomEvents econ ai g).1 in
  static_part ai' = static_part ai /\ investments ai' = investments ai /\
  business ai' = business ai /\ alive ai' = alive ai.
Proof.
  cbn zeta. rewrite randomEvents_fired.
  destruct (fired_branch econ (g 0%nat)); repeat split.
Qed.

Lemma executeAction_frame (ai : Agent) (a : Action) :
  let ai' := executeAction ai a in
  static_part ai' = static_part ai /\ stress ai' = stress ai /\
  alive ai' = alive ai /\
  business ai' =
    match a with
    | start_business => Some {| revenue := 1000 |}
    | _ => business ai
    end.
Proof. destruct a; repeat split. Qed.

Lemma applyInvestments_frame (ai : Agent) (g : RNG) :
  set_investments (investments (applyInvestments ai g).1) ai
    = (applyInvestments ai g).1.
Proof. reflexivity. Qed.

Lemma updateStress_frame (ai : Agent) :
  set_stress (stress (updateStress ai)) ai = updateStress ai.
Proof. unfold updateStress. destruct (Qltb (cash ai) (rent ai)); reflexivity. Qed.

Lemma updateStress_floor (ai : Agent) : 0 <= stress (updateStress ai).
Proof. unfold updateStress. cbn. apply Q.le_max_l. Qed.

(** The fields of the agent after [runMonth], in terms of the action the
    decision engine chose. *)
Lemma runMonth_frame (econ : Economy) (ai : Agent) (g : RNG) :
  let action := (runMonth econ ai g).1.1 in
  let ai' := (runMonth econ ai g).1.2 in
  static_part ai' = static_part ai /\
  0 <= stress ai' /\
  alive ai' = (if Qltb (cash ai') 0 then false else alive ai) /\
  business ai' =
    match action with
    | start_business => Some {| revenue := 1000 |}
    | _ => business ai
    end.
Proof.
  cbn zeta. unfold runMonth.
  pose proof (processIncome_frame ai g) as H0.
  destruct (processIncome ai g) as [a0 g0]. cbn [fst] in H0.
  pose proof (randomEvents_frame econ (processExpenses a0) g0) as H2.
  destruct (randomEvents econ (processExpenses a0) g0) as [a2 g2].
  cbn [fst] in H2. destruct H2 as (H2s & _ & H2b & H2a).
  pose proof (decisionEngine_executes a2 g2) as H3.
  destruct (decisionEngine a2 g2) as [[act a3] g3]. cbn [fst snd] in H3.
  pose proof (executeAction_frame a2 act) as H3'. rewrite <- H3 in H3'.
  cbn zeta in H3'. destruct H3' as (H3s & _ & H3a & H3b).
  pose proof (applyInvestments_frame a3 g3) as H4.
  destruct (applyInvestments a3 g3) as [a4 g4]. cbn [fst] in H4.
  pose proof (updateStress_frame a4) as H5.
  pose proof (updateStress_floor a4) as Hfl.
  generalize dependent (updateStress a4). intros a5 H5 Hfl.
  cbn [fst snd].
  assert (E1 : static_part (processExpenses a0) = static_part ai /\
               alive (processExpenses a0) = alive ai /\
               business (processExpenses a0) = business ai)
    by (rewrite <- H0; repeat split).
  generalize dependent (processExpenses a0). intros a1 H2s H2b H2a E1.
  assert (E5 : static_part a5 = static_part a4 /\
               alive a5 = alive a4 /\ business a5 = business a4)
    by (rewrite <- H5; repeat split).
  assert (E4 : static_part a4 = static_part a3 /\
               alive a4 = alive a3 /\ business a4 = business a3)
    by (rewrite <- H4; repeat split).
  destruct E5 as (E5s & E5a & E5b), E4 as (E4s & E4a & E4b),
    E1 as (E1s & E1a & E1b).
  rewrite <- E1s, <- E1a, <- E1b, <- H2s, <- H2a, <- H2b, <- H3s, <- H3a.
  rewrite <- E4s, <- E4a, <- E5s, <- E5a.
  assert (Hbu : business a5 =
                match act with
                | start_business => Some {| revenue := 1000 |}
                | _ => business a2
                end)
    by (rewrite E5b, E4b, H3b; reflexivity).
  destruct (Qltb (cash a5) 0) eqn:Hneg; cbn; rewrite ?Hneg; auto.
Qed.

(** C6. Stress floor: after a full monthly tick the agent's stress is at
    least 0, whatever the economy, the agent and the random draws. *)
Theorem runMonth_stress_floor (econ : Economy) (ai : Agent) (g : RNG) :
  0 <= stress (runMonth econ ai g).1.2.
Proof. apply (runMonth_frame econ ai g). Qed.

(** ** The order of JavaScript numbers *)

Lemma gt_irrefl (x : num) : (x > x)%js = false.
Proof. destruct x; cbn; trivial. qbool. lra. Qed.

Lemma gt_asym (x y : num) : (x > y)%js = true -> (y > x)%js = false.
Proof.
  destruct x, y; cbn; trivial; try discriminate. intros H. qbool. lra.
Qed.

Lemma gt_trans (x y z : num) :
  (x > y)%js = true -> (y > z)%js = true -> (x > z)%js = true.
Proof.
  destruct x, y, z; cbn; trivial; try discriminate.
  intros H1 H2. qbool. lra.
Qed.

(** If [x] exceeds [y] but not [z], then [y] does not exceed [z]. *)
Lemma gt_below (x y z : num) :
  (x > y)%js = true -> (x > z)%js = false -> (y > z)%js = false.
Proof.
  intros Hxy Hxz. destruct (y > z)%js eqn:Hyz; [|reflexivity].
  rewrite (gt_trans x y z Hxy Hyz) in Hxz. discriminate.
Qed.

(** [not >] is transitive through a middle value that is a number. *)
Lemma gt_negtrans (x y z : num) :
  JS.is_nan y = false ->
  (x > y)%js = false -> (y > z)%js = false -> (x > z)%js = false.
Proof.
  destruct x, y, z; cbn; trivial; try discriminate.
  intros _ H1 H2. qbool. lra.
Qed.

Lemma gt_not_nan_l (x y : num) : (x > y)%js = true -> JS.is_nan x = false.
Proof. destruct x, y; cbn; trivial; discriminate. Qed.

Lemma gt_not_nan_r (x y : num) : (x > y)%js = true -> JS.is_nan y = false.
Proof. destruct x, y; cbn; trivial; discriminate. Qed.

Create HintDb jsgt.
#[local] Hint Resolve gt_irrefl gt_asym gt_below gt_negtrans : jsgt.

(** ** The choice of [pick_best] *)

Lemma pick_best_unfold (sc : Scores) :
  pick_best sc =
    better sc (better sc (better sc save invest) start_business) job_search.
Proof. reflexivity. Qed.

(** The action chosen is not exceeded by any action, and strictly exceeds
    every action after it in the enumeration order.  Only the first score
    may be [NaN]. *)
Lemma pick_best_last_max (sc : Scores) :
  JS.is_nan (sc invest) = false ->
  JS.is_nan (sc start_business) = false ->
  (forall a, (sc a > sc (pick_best sc))%js = false) /\
  (forall a, (position (pick_best sc) < position a)%nat ->
             (sc (pick_best sc) > sc a)%js = true).
Proof.
  intros Hi Hb. rewrite pick_best_unfold. unfold better.
  destruct (sc save > sc invest)%js eqn:C1; cbv iota;
    match goal with
    | |- context [(sc ?a > sc start_business)%js] =>
        destruct (sc a > sc start_business)%js eqn:C2
    end; cbv iota;
    match goal with
    | |- context [(sc ?a > sc job_search)%js] =>
        destruct (sc a > sc job_search)%js eqn:C3
    end; cbv iota;
    (split; intros a; destruct a; cbn [position]; intros;
     solve [ lia | assumption | eauto 5 with jsgt ]).
Qed.

(** The action chosen is the only one that exceeds all others, when there
    is one. *)
Lemma pick_best_dominant (sc : Scores) (k : Action) :
  (forall a, a <> k -> (sc k > sc a)%js = true) -> pick_best sc = k.
Proof.
  intros Hk.
  assert (Hn : forall a, JS.is_nan (sc a) = false).
  { intros a. destruct k, a;
      first [ eapply gt_not_nan_r; apply Hk; discriminate
            | eapply (gt_not_nan_l _ (sc save)); apply Hk; discriminate
            | eapply (gt_not_nan_l _ (sc invest)); apply Hk; discriminate ]. }
  destruct (pick_best_last_max sc (Hn invest) (Hn start_business))
    as [Hmax _].
  specialize (Hmax k).
  destruct (pick_best sc), k; try reflexivity;
    rewrite Hk in Hmax by discriminate; discriminate.
Qed.

(** ** The scores *)

(** Only the [save] score can be [NaN]: the other three are a number or
    an infinity, whatever the emergency runway is. *)
Lemma jittered_scores_not_nan (ai : Agent) (g : RNG) (a : Action) :
  a <> save -> JS.is_nan ((jittered_scores ai g).1 a) = false.
Proof.
  intros Ha. rewrite jittered_scores_at. unfold base_scores.
  generalize (emergencyMonths (getContext ai)). intros em.
  destruct a; [congruence | | |].
  - destruct em as [q| | |]; cbn; trivial. destruct (Qltb 3 q); reflexivity.
  - destruct (Qltb 5000 (cash ai) && negb (truthy (business ai)));
      reflexivity.
  - destruct (negb (employed ai)); reflexivity.
Qed.

Lemma not_exceeded_true (sc : Scores) (a : Action) :
  (forall b, (sc b > sc a)%js = false) -> not_exceeded sc a = true.
Proof.
  intros H. unfold not_exceeded, keys. cbn. rewrite !H. reflexivity.
Qed.

Lemma not_exceeded_false (sc : Scores) (a b : Action) :
  (sc b > sc a)%js = true -> not_exceeded sc a = false.
Proof.
  intros H. unfold not_exceeded, keys. cbn.
  destruct b; rewrite H; cbn; rewrite ?andb_false_r; reflexivity.
Qed.

(** ** Context derivation *)

Lemma div_by_zero (a b : Q) :
  b == 0 -> (Num a / Num b)%js = JS.signed_inf (a ?= 0).
Proof.
  intros Hb. cbn. apply Qeq_bool_iff in Hb. rewrite Hb. reflexivity.
Qed.

Lemma div_by_nonzero (a b : Q) :
  ~ b == 0 -> (Num a / Num b)%js = Num (a / b).
Proof.
  intros Hb. cbn. destruct (Qeq_bool b 0) eqn:E; [|reflexivity].
  apply Qeq_bool_iff in E. contradiction.
Qed.

(** C1, as the specification words it, fails: for an agent whose fixed
    costs sum to zero [getContext] completes normally, without an error,
    and hands back the non-finite [Infinity]. *)
Lemma getContext_zero_costs_returns_Infinity :
  fixed_costs rent_free_agent == 0 /\
  getContext_call rent_free_agent
    = Normal {| emergencyMonths := Infinity |} /\
  JS.is_finite Infinity = false /\
  ~ (exists msg, getContext_call rent_free_agent = Throw msg).
Proof.
  split; [reflexivity|]. split; [reflexivity|]. split; [reflexivity|].
  intros [msg Hmsg]. discriminate Hmsg.
Qed.

(** C1, amended. Context derivation has no guard: for every agent whose
    fixed monthly costs sum to zero, [getContext] completes normally and
    the [emergencyMonths] it returns is not finite: [Infinity] for positive
    cash, [-Infinity] for negative cash, [NaN] for zero cash. *)
Theorem getContext_zero_costs_not_finite (ai : Agent) :
  fixed_costs ai == 0 ->
  getContext_call ai = Normal (getContext ai) /\
  emergencyMonths (getContext ai) = JS.signed_inf (cash ai ?= 0) /\
  JS.is_finite (emergencyMonths (getContext ai)) = false.
Proof.
  intros Hz. split; [reflexivity|].
  assert (He : emergencyMonths (getContext ai)
               = JS.signed_inf (cash ai ?= 0))
    by (apply div_by_zero; exact Hz).
  split; [exact He|]. rewrite He. destruct (cash ai ?= 0); reflexivity.
Qed.

Lemma getContext_zero_costs_not_finite_witness :
  fixed_costs rent_free_agent == 0 /\
  JS.is_finite (emergencyMonths (getContext rent_free_agent)) = false.
Proof.
  split; [reflexivity|].
  apply (getContext_zero_costs_not_finite rent_free_agent). reflexivity.
Defined.

(** With non-zero fixed costs the runway is the finite quotient. *)
Lemma getContext_finite (ai : Agent) :
  ~ fixed_costs ai == 0 ->
  emergencyMonths (getContext ai) = Num (cash ai / fixed_costs ai).
Proof. intros Hnz. apply div_by_nonzero. exact Hnz. Qed.

(** ** The decision policy *)

(** C2, as the specification words it, fails.  For [tie_agent] with every
    jitter draw at 0.5 (jitter 0), [invest] and [start_business] share the
    maximal score 30; the first action in the enumeration order with a
    score not exceeded by any other is [invest], but [decisionEngine]
    returns [start_business]. *)
Lemma decisionEngine_tie_returns_later_action :
  let sc := (jittered_scores tie_agent (constant_rng 0.5)).1 in
  tied_at_max sc invest start_business = true /\
  first_not_exceeded sc = Some invest /\
  (decisionEngine tie_agent (constant_rng 0.5)).1.1 = start_business /\
  Some (decisionEngine tie_agent (constant_rng 0.5)).1.1
    <> first_not_exceeded sc.
Proof. vm_compute. repeat split; discriminate. Qed.

(** C2, amended. [decisionEngine] returns an action whose post-jitter
    score no other action's score exceeds, and on an exact tie it returns
    the last such action in the enumeration order (save, invest,
    start_business, job_search): every action after the chosen one has a
    strictly smaller score. *)
Theorem decisionEngine_selects_last_maximum (ai : Agent) (g : RNG) :
  let sc := (jittered_scores ai g).1 in
  let best := (decisionEngine ai g).1.1 in
  not_exceeded sc best = true /\
  (forall a, (position best < position a)%nat -> (sc best > sc a)%js = true) /\
  (forall a, not_exceeded sc a = true -> (position a <= position best)%nat) /\
  last_not_exceeded sc = Some best.
Proof.
  intros sc best.
  assert (Hbest : best = pick_best sc)
    by (unfold best; rewrite decisionEngine_unfold; reflexivity).
  assert (Hi : JS.is_nan (sc invest) = false)
    by (apply jittered_scores_not_nan; discriminate).
  assert (Hb : JS.is_nan (sc start_business) = false)
    by (apply jittered_scores_not_nan; discriminate).
  destruct (pick_best_last_max sc Hi Hb) as [Hmax Hlater].
  rewrite <- Hbest in Hmax, Hlater. clearbody sc best. clear Hbest Hi Hb.
  assert (Hne : not_exceeded sc best = true)
    by (apply not_exceeded_true, Hmax).
  assert (Hout : forall a, (position best < position a)%nat ->
                           not_exceeded sc a = false)
    by (intros a Ha; apply (not_exceeded_false sc a best), Hlater, Ha).
  split; [exact Hne|]. split; [exact Hlater|]. split.
  - intros a Ha. destruct (Nat.le_gt_cases (position a) (position best))
      as [Hle|Hgt]; [exact Hle|].
    rewrite (Hout a Hgt) in Ha. discriminate.
  - unfold last_not_exceeded, keys. cbn [rev app find].
    destruct best; cbn [position] in Hout;
      rewrite ?(Hout job_search) by (cbn; lia);
      rewrite ?(Hout start_business) by (cbn; lia);
      rewrite ?(Hout invest) by (cbn; lia);
      rewrite Hne; reflexivity.
Qed.

(** C9. Scenario: an unemployed agent with cash 100, no business and
    fixed costs of 1500 (traits in their range [0,1]).  For every tape of
    draws in [0,1), that is for every four jitter values in [-2.5, 2.5),
    the post-jitter score of [job_search] strictly exceeds the score of
    each other action, and [decisionEngine] selects [job_search]. *)
Theorem decisionEngine_scenario_job_search (ai : Agent) (g : RNG) :
  employed ai = false ->
  cash ai == 100 ->
  business ai = None ->
  fixed_costs ai == 1500 ->
  traits_in_range ai ->
  uniform g ->
  let sc := (jittered_scores ai g).1 in
  (forall a, a <> job_search -> (sc job_search > sc a)%js = true) /\
  (decisionEngine ai g).1.1 = job_search.
Proof.
  intros Hemp Hcash Hbus Hcosts [[Hr0 Hr1] [Hd0 Hd1]] Hg sc.
  assert (Hdom : forall a, a <> job_search -> (sc job_search > sc a)%js = true).
  { intros a Ha. unfold sc. rewrite !jittered_scores_at. unfold base_scores.
    rewrite getContext_finite by (rewrite Hcosts; discriminate).
    assert (Hem : cash ai / fixed_costs ai == 1 # 15)
      by (rewrite Hcash, Hcosts; reflexivity).
    revert Hem. generalize (cash ai / fixed_costs ai). intros em Hem.
    rewrite Hemp, Hbus.
    destruct (jitter_range _ (proj1 (Hg 0%nat)) (proj2 (Hg 0%nat))).
    destruct (jitter_range _ (proj1 (Hg 1%nat)) (proj2 (Hg 1%nat))).
    destruct (jitter_range _ (proj1 (Hg 2%nat)) (proj2 (Hg 2%nat))).
    destruct (jitter_range _ (proj1 (Hg 3%nat)) (proj2 (Hg 3%nat))).
    assert (Hrunway : Qltb 3 em = false) by (qbool; lra).
    assert (Hpoor : Qltb 5000 (cash ai) = false) by (qbool; lra).
    destruct a; [| | |congruence];
      cbn [position JS.add JS.sub JS.mul JS.gt JS.neg negb truthy andb];
      rewrite ?Hrunway, ?Hpoor;
      cbn [position JS.add JS.sub JS.mul JS.gt JS.neg negb truthy andb];
      qbool; lra. }
  split; [exact Hdom|].
  rewrite decisionEngine_unfold. cbn zeta. cbn [fst snd].
  apply pick_best_dominant. exact Hdom.
Qed.

Lemma uniform_constant_half : uniform (constant_rng 0.5).
Proof. intros n. unfold constant_rng. split; lra. Qed.

Lemma decisionEngine_scenario_job_search_witness :
  (decisionEngine scenario_agent (constant_rng 0.5)).1.1 = job_search.
Proof.
  apply (decisionEngine_scenario_job_search scenario_agent (constant_rng 0.5));
    try reflexivity.
  - unfold traits_in_range. cbn. repeat split; lra.
  - exact uniform_constant_half.
Defined.

(** ** Tapes *)

Lemma uniform_tail (g : RNG) : uniform g -> uniform (random g).2.
Proof. intros Hg n. apply (Hg (S n)). Qed.

Lemma processIncome_tape (ai : Agent) (g : RNG) :
  (processIncome ai g).2 = if sideHustle ai then (random g).2 else g.
Proof.
  unfold processIncome.
  destruct (employed ai), (sideHustle ai) eqn:Hs; cbn; rewrite ?Hs; reflexivity.
Qed.

Lemma processIncome_uniform (ai : Agent) (g : RNG) :
  uniform g -> uniform (processIncome ai g).2.
Proof.
  intros Hg. rewrite processIncome_tape.
  destruct (sideHustle ai); [apply uniform_tail|]; exact Hg.
Qed.

(** ** Static fields *)

Lemma static_part_fields (ai ai' : Agent) :
  static_part ai' = static_part ai ->
  name ai' = name ai /\ fixed_costs ai' = fixed_costs ai /\
  riskTolerance ai' = riskTolerance ai /\ discipline ai' = discipline ai /\
  sideHustle ai' = sideHustle ai.
Proof.
  unfold static_part, fixed_costs. intros H.
  injection H as Hn Hc Hs Hr Hf Ho Hrt Hd Hi Hsh.
  rewrite Hr, Hf, Ho. auto.
Qed.

Lemma static_part_traits (ai ai' : Agent) :
  static_part ai' = static_part ai ->
  traits_in_range ai -> traits_in_range ai'.
Proof.
  intros H. destruct (static_part_fields _ _ H) as (_ & _ & Hr & Hd & _).
  unfold traits_in_range. rewrite Hr, Hd. trivial.
Qed.

(** The state on which [runMonth] runs the decision engine has the static
    fields and the business of the state at the start of the month. *)
Lemma runMonth_decides (econ : Economy) (ai : Agent) (g : RNG) :
  exists (a2 : Agent) (g2 : RNG),
    (runMonth econ ai g).1.1 = (decisionEngine a2 g2).1.1 /\
    static_part a2 = static_part ai /\
    business a2 = business ai /\
    (uniform g -> uniform g2).
Proof.
  unfold runMonth.
  pose proof (processIncome_frame ai g) as H0.
  pose proof (processIncome_uniform ai g) as U0.
  destruct (processIncome ai g) as [a0 g0]. cbn [fst snd] in H0, U0.
  pose proof (randomEvents_frame econ (processExpenses a0) g0) as H2.
  pose proof (randomEvents_tape econ (processExpenses a0) g0) as U2.
  destruct (randomEvents econ (processExpenses a0) g0) as [a2 g2].
  cbn [fst snd] in H2, U2. destruct H2 as (H2s & _ & H2b & _).
  exists a2, g2.
  destruct (decisionEngine a2 g2) as [[act a3] g3].
  destruct (applyInvestments a3 g3) as [a4 g4]. cbn [fst snd].
  split; [reflexivity|].
  rewrite H2s, H2b, <- H0. split; [reflexivity|]. split; [reflexivity|].
  intros Hg. rewrite U2. apply uniform_tail, U0, Hg.
Qed.

(** ** Reachable states *)

Lemma evolves_trans (econ : Economy) (a b c : Agent) :
  evolves econ a b -> evolves econ b c -> evolves econ a c.
Proof.
  intros Hab Hbc. induction Hbc as [|c g Hbc IH Hal Hg]; [exact Hab|].
  apply evolves_month; assumption.
Qed.

Lemma evolves_static (econ : Economy) (ai ai' : Agent) :
  evolves econ ai ai' -> static_part ai' = static_part ai.
Proof.
  induction 1 as [|ai' g Hev IH Hal Hg]; [reflexivity|].
  rewrite <- IH. apply (runMonth_frame econ ai' g).
Qed.

Lemma reachable_evolves (econ : Economy) (ai ai' : Agent) :
  reachable econ ai -> evolves econ ai ai' -> reachable econ ai'.
Proof.
  intros (nm & rt & d & i & col & Hev) Hstep.
  exists nm, rt, d, i, col. eapply evolves_trans; eassumption.
Qed.

Lemma reachable_fixed_costs (econ : Economy) (ai : Agent) :
  reachable econ ai -> fixed_costs ai = 800 + 400 + 300.
Proof.
  intros (nm & rt & d & i & col & Hev).
  apply evolves_static, static_part_fields in Hev.
  destruct Hev as (_ & Hc & _). exact Hc.
Qed.

Lemma reachable_business (econ : Economy) (ai : Agent) :
  reachable econ ai ->
  business ai = None \/ business ai = Some {| revenue := 1000 |}.
Proof.
  intros (nm & rt & d & i & col & Hev).
  induction Hev as [|ai' g Hev IH Hal Hg]; [left; reflexivity|].
  destruct (runMonth_frame econ ai' g) as (_ & _ & _ & Hb).
  rewrite Hb. destruct (runMonth econ ai' g).1.1; auto.
Qed.

(** ** Business creation *)

(** With a business, positive or negative but non-zero fixed costs and
    traits in range, [save] or [invest] strictly exceeds the −100-based
    [start_business] score, and [start_business] is not chosen. *)
Lemma owner_never_starts_business (ai : Agent) (g : RNG) :
  ~ fixed_costs ai == 0 ->
  traits_in_range ai ->
  truthy (business ai) = true ->
  uniform g ->
  let sc := (jittered_scores ai g).1 in
  (exists a, a <> start_business /\ (sc a > sc start_business)%js = true) /\
  (decisionEngine ai g).1.1 <> start_business.
Proof.
  intros Hnz [[Hr0 Hr1] [Hd0 Hd1]] Hbus Hg sc.
  assert (Hex : exists a, a <> start_business /\
                          (sc a > sc start_business)%js = true).
  { unfold sc. setoid_rewrite jittered_scores_at. unfold base_scores.
    rewrite (getContext_finite ai Hnz), Hbus, andb_false_r.
    generalize (cash ai / fixed_costs ai). intros em.
    destruct (jitter_range _ (proj1 (Hg 0%nat)) (proj2 (Hg 0%nat))).
    destruct (jitter_range _ (proj1 (Hg 1%nat)) (proj2 (Hg 1%nat))).
    destruct (jitter_range _ (proj1 (Hg 2%nat)) (proj2 (Hg 2%nat))).
    destruct (Qltb 3 em) eqn:Hrunway.
    - exists invest. split; [discriminate|].
      cbn [position JS.add JS.sub JS.mul JS.gt JS.neg]. rewrite Hrunway.
      cbn [position JS.add JS.sub JS.mul JS.gt JS.neg]. qbool. lra.
    - exists save. split; [discriminate|].
      cbn [position JS.add JS.sub JS.mul JS.gt JS.neg]. qbool. lra. }
  split; [exact Hex|].
  destruct Hex as (a & Ha & Hgt).
  rewrite decisionEngine_unfold. cbn zeta. cbn [fst snd]. fold sc.
  intros Hpick.
  assert (Hi : JS.is_nan (sc invest) = false)
    by (apply jittered_scores_not_nan; discriminate).
  assert (Hb : JS.is_nan (sc start_business) = false)
    by (apply jittered_scores_not_nan; discriminate).
  destruct (pick_best_last_max sc Hi Hb) as [Hmax _].
  specialize (Hmax a). rewrite Hpick, Hgt in Hmax. discriminate.
Qed.

(** One month keeps the business of an agent that has one. *)
Lemma runMonth_keeps_business
    (econ : Economy) (ai : Agent) (g : RNG) (b : Business) :
  ~ fixed_costs ai == 0 ->
  traits_in_range ai ->
  business ai = Some b ->
  uniform g ->
  (runMonth econ ai g).1.1 <> start_business /\
  business (runMonth econ ai g).1.2 = Some b.
Proof.
  intros Hnz Htr Hbus Hg.
  destruct (runMonth_decides econ ai g) as (a2 & g2 & Hact & Hst & Hb2 & Hu).
  assert (Hno : (runMonth econ ai g).1.1 <> start_business).
  { rewrite Hact. apply owner_never_starts_business.
    - destruct (static_part_fields _ _ Hst) as (_ & -> & _). exact Hnz.
    - apply (static_part_traits _ _ Hst Htr).
    - rewrite Hb2, Hbus. reflexivity.
    - apply Hu, Hg. }
  split; [exact Hno|].
  destruct (runMonth_frame econ ai g) as (_ & _ & _ & Hb).
  rewrite Hb, <- Hbus. destruct (runMonth econ ai g).1.1; congruence.
Qed.

(** C4. Business creation is exactly-once.  Executing [start_business]
    leaves a business with revenue 1000, also at the end of the month in
    which it is chosen.  In every reachable state (traits in [0,1]) that
    has a business, the business is that record; for all draws in [0,1)
    some other action's post-jitter score strictly exceeds the score of
    [start_business], so neither [decisionEngine] nor the month's tick
    selects it; and every later state has the very same business. *)
Theorem business_created_exactly_once (econ : Economy) (ai : Agent) :
  reachable econ ai ->
  traits_in_range ai ->
  business (executeAction ai start_business) = Some {| revenue := 1000 |} /\
  (forall g, (runMonth econ ai g).1.1 = start_business ->
             business (runMonth econ ai g).1.2 = Some {| revenue := 1000 |}) /\
  (forall b, business ai = Some b ->
     b = {| revenue := 1000 |} /\
     (forall g, uniform g ->
        let sc := (jittered_scores ai g).1 in
        (exists a, a <> start_business /\
                   (sc a > sc start_business)%js = true) /\
        (decisionEngine ai g).1.1 <> start_business /\
        (runMonth econ ai g).1.1 <> start_business) /\
     (forall ai', evolves econ ai ai' -> business ai' = Some b)).
Proof.
  intros Hreach Htr.
  assert (Hcosts : forall a, reachable econ a -> ~ fixed_costs a == 0)
    by (intros a Ha; rewrite (reachable_fixed_costs econ a Ha); discriminate).
  split; [reflexivity|]. split.
  { intros g Hact. destruct (runMonth_frame econ ai g) as (_ & _ & _ & Hb).
    rewrite Hb, Hact. reflexivity. }
  intros b Hbus. split; [|split].
  - destruct (reachable_business econ ai Hreach) as [Hn|Hs]; congruence.
  - intros g Hg sc.
    destruct (owner_never_starts_business ai g (Hcosts ai Hreach) Htr)
      as [Hex Hno]; [rewrite Hbus; reflexivity | exact Hg |].
    split; [exact Hex|]. split; [exact Hno|].
    apply (runMonth_keeps_business econ ai g b); auto.
  - intros ai' Hev. induction Hev as [|ai' g Hev IH Hal Hg]; [exact Hbus|].
    apply runMonth_keeps_business; auto.
    + apply Hcosts. eapply reachable_evolves; eassumption.
    + apply (static_part_traits ai ai'); [|exact Htr].
      apply (evolves_static econ), Hev.
Qed.

Lemma reachable_founder : reachable economy founder.
Proof.
  exists "Founder"%string, 1, 0, 0.5, "#9c27b0"%string.
  apply evolves_month;
    [apply evolves_refl | reflexivity | exact uniform_constant_half].
Qed.

Lemma traits_founder : traits_in_range founder.
Proof.
  apply (static_part_traits (createAI "Founder" 1 0 0.5 "#9c27b0")).
  - apply (runMonth_frame economy).
  - unfold traits_in_range. cbn. repeat split; lra.
Qed.

Lemma business_created_exactly_once_witness :
  reachable economy founder /\
  traits_in_range founder /\
  business founder = Some {| revenue := 1000 |} /\
  (decisionEngine founder (constant_rng 0.5)).1.1 <> start_business.
Proof.
  pose proof traits_founder as Htr.
  split; [exact reachable_founder|]. split; [exact Htr|].
  split; [vm_compute; reflexivity|].
  destruct (business_created_exactly_once economy founder
              reachable_founder Htr) as (_ & _ & Hown).
  destruct (Hown {| revenue := 1000 |}) as (_ & Hsel & _);
    [vm_compute; reflexivity|].
  apply (Hsel (constant_rng 0.5) uniform_constant_half).
Defined.

(** ** The side hustle *)

(** C10. [sideHustle] is false in every reachable state: [createAI] sets
    it to false and no step of the program assigns it.  Hence, for a
    reachable agent, [processIncome] never takes the side-hustle branch
    (it consumes no draw and adds only salary and business revenue), and
    the precondition of income additivity (employed, side hustle and
    business all present) is never met. *)
Theorem sideHustle_never_set (econ : Economy) :
  (forall nm rt d i col, sideHustle (createAI nm rt d i col) = false) /\
  (forall ai g a,
     sideHustle (processIncome ai g).1 = sideHustle ai /\
     sideHustle (processExpenses ai) = sideHustle ai /\
     sideHustle (randomEvents econ ai g).1 = sideHustle ai /\
     sideHustle (executeAction ai a) = sideHustle ai /\
     sideHustle (decisionEngine ai g).1.2 = sideHustle ai /\
     sideHustle (applyInvestments ai g).1 = sideHustle ai /\
     sideHustle (updateStress ai) = sideHustle ai /\
     sideHustle (runMonth econ ai g).1.2 = sideHustle ai) /\
  (forall ai, reachable econ ai ->
     sideHustle ai = false /\
     (forall g,
        (processIncome ai g).2 = g /\
        cash (processIncome ai g).1 ==
          cash ai + (if employed ai then salary ai else 0)
          + match business ai with Some b => revenue b | None => 0 end) /\
     ~ (employed ai = true /\ sideHustle ai = true /\
        truthy (business ai) = true)).
Proof.
  split; [reflexivity|]. split.
  - intros ai g a.
    split; [rewrite <- processIncome_frame; reflexivity|].
    split; [reflexivity|].
    split; [apply (static_part_fields _ _
                     (proj1 (randomEvents_frame econ ai g)))|].
    split; [destruct a; reflexivity|].
    split; [rewrite decisionEngine_executes;
            destruct (decisionEngine ai g).1.1; reflexivity|].
    split; [reflexivity|].
    split; [rewrite <- updateStress_frame; reflexivity|].
    apply (static_part_fields _ _ (proj1 (runMonth_frame econ ai g))).
  - intros ai (nm & rt & d & i & col & Hev).
    assert (Hside : sideHustle ai = false).
    { apply evolves_static, static_part_fields in Hev.
      destruct Hev as (_ & _ & _ & _ & Hs). exact Hs. }
    split; [exact Hside|]. split.
    + intros g. split; [rewrite processIncome_tape, Hside; reflexivity|].
      rewrite processIncome_cash, Hside. lra.
    + intros (_ & Hs & _). congruence.
Qed.

Lemma sideHustle_never_set_witness :
  reachable economy founder /\ sideHustle founder = false.
Proof.
  split; [exact reachable_founder|].
  apply (sideHustle_never_set economy). exact reachable_founder.
Defined.

(** ** Death *)

(** No step of the month writes [alive]; only the insolvency check at the
    end of [runMonth] does, and it writes [false]. *)
Lemma steps_keep_alive (econ : Economy) (ai : Agent) (g : RNG) (a : Action) :
  alive (processIncome ai g).1 = alive ai /\
  alive (processExpenses ai) = alive ai /\
  alive (randomEvents econ ai g).1 = alive ai /\
  alive (executeAction ai a) = alive ai /\
  alive (decisionEngine ai g).1.2 = alive ai /\
  alive (applyInvestments ai g).1 = alive ai /\
  alive (updateStress ai) = alive ai.
Proof.
  split; [rewrite <- processIncome_frame; reflexivity|].
  split; [reflexivity|].
  split; [apply (randomEvents_frame econ ai g)|].
  split; [destruct a; reflexivity|].
  split; [rewrite decisionEngine_executes;
          destruct (decisionEngine ai g).1.1; reflexivity|].
  split; [reflexivity|].
  rewrite <- updateStress_frame; reflexivity.
Qed.

Lemma runMonth_stays_dead (econ : Economy) (ai : Agent) (g : RNG) :
  alive ai = false -> alive (runMonth econ ai g).1.2 = false.
Proof.
  intros Hdead. destruct (runMonth_frame econ ai g) as (_ & _ & Hal & _).
  rewrite Hal, Hdead. destruct (Qltb _ 0); reflexivity.
Qed.

Lemma simulateAgent_dead
    (econ : Economy) (ai : Agent) (actions : ActionMap) (g : RNG) :
  alive ai = false ->
  simulateAgent econ ai actions g
    = (ai, <[name ai := "BANKRUPT"%string]> actions, g).
Proof. intros Hdead. unfold simulateAgent. rewrite Hdead. reflexivity. Qed.

Lemma simulateAgent_name
    (econ : Economy) (ai : Agent) (actions : ActionMap) (g : RNG) :
  name (simulateAgent econ ai actions g).1.1 = name ai.
Proof.
  unfold simulateAgent. destruct (alive ai); [|reflexivity].
  pose proof (runMonth_frame econ ai g) as (Hst & _).
  destruct (runMonth econ ai g) as [[act ai'] g']. cbn [fst snd] in *.
  apply (static_part_fields _ _ Hst).
Qed.

(** The callback writes the entry of its own agent only. *)
Lemma simulateAgent_other_keys
    (econ : Economy) (ai : Agent) (actions : ActionMap) (g : RNG)
    (k : string) :
  k <> name ai ->
  (simulateAgent econ ai actions g).1.2 !! k = actions !! k.
Proof.
  intros Hk. unfold simulateAgent. destruct (alive ai).
  - destruct (runMonth econ ai g) as [[act ai'] g']. cbn [fst snd].
    apply lookup_insert_ne. congruence.
  - cbn [fst snd]. apply lookup_insert_ne. congruence.
Qed.

Lemma forEach_agent_names
    (econ : Economy) (ags : list Agent) (actions : ActionMap) (g : RNG) :
  map name (forEach_agent econ ags actions g).1.1 = map name ags.
Proof.
  revert actions g. induction ags as [|ai rest IH]; intros actions g;
    [reflexivity|].
  cbn [forEach_agent].
  pose proof (simulateAgent_name econ ai actions g) as Hn.
  destruct (simulateAgent econ ai actions g) as [[ai' actions'] g'].
  cbn [fst snd] in Hn. specialize (IH actions' g').
  destruct (forEach_agent econ rest actions' g') as [[rest' actions''] g''].
  cbn [fst snd] in *. cbn [map]. rewrite Hn, IH. reflexivity.
Qed.

Lemma forEach_agent_other_keys
    (econ : Economy) (ags : list Agent) (actions : ActionMap) (g : RNG)
    (k : string) :
  ~ In k (map name ags) ->
  (forEach_agent econ ags actions g).1.2 !! k = actions !! k.
Proof.
  revert actions g. induction ags as [|ai rest IH]; intros actions g Hk;
    [reflexivity|].
  cbn [forEach_agent].
  pose proof (simulateAgent_other_keys econ ai actions g k) as Ho.
  destruct (simulateAgent econ ai actions g) as [[ai' actions'] g'].
  cbn [fst snd] in Ho. specialize (IH actions' g').
  destruct (forEach_agent econ rest actions' g') as [[rest' actions''] g''].
  cbn [fst snd] in *. cbn [map In] in Hk.
  rewrite IH, Ho; [reflexivity | |]; intuition congruence.
Qed.

(** A dead agent of a population with distinct names is left as it is by
    the [forEach], and its entry of the action map is ["BANKRUPT"]. *)
Lemma forEach_agent_dead
    (econ : Economy) (ags : list Agent) (actions : ActionMap) (g : RNG)
    (i : nat) (ai : Agent) :
  List.NoDup (map name ags) ->
  ags !! i = Some ai ->
  alive ai = false ->
  (forEach_agent econ ags actions g).1.1 !! i = Some ai /\
  (forEach_agent econ ags actions g).1.2 !! name ai
    = Some "BANKRUPT"%string.
Proof.
  revert actions g i. induction ags as [|a rest IH];
    intros actions g i Hnd Hi Hdead; [discriminate Hi|].
  cbn [map] in Hnd. apply List.NoDup_cons_iff in Hnd as [Hnotin Hnd].
  cbn [forEach_agent]. destruct i as [|i].
  - cbn in Hi. injection Hi as ->.
    rewrite (simulateAgent_dead econ ai actions g Hdead).
    pose proof (forEach_agent_other_keys econ rest
                  (<[name ai := "BANKRUPT"%string]> actions) g
                  (name ai) Hnotin) as Hk.
    destruct (forEach_agent econ rest _ g) as [[rest' actions''] g''].
    cbn [fst snd] in *. split; [reflexivity|].
    rewrite Hk. apply lookup_insert_eq.
  - cbn in Hi.
    destruct (simulateAgent econ a actions g) as [[a' actions'] g'].
    specialize (IH actions' g' i Hnd Hi Hdead).
    destruct (forEach_agent econ rest actions' g') as [[rest' actions''] g''].
    cbn [fst snd] in *. exact IH.
Qed.

(** Before the horizon, one call of [simulateMonth] emits an action map
    that holds ["BANKRUPT"] under the name of a dead agent, and leaves the
    agent as it is. *)
Lemma simulateMonth_dead
    (econ : Economy) (s : Sim) (g : RNG) (i : nat) (ai : Agent) :
  (currentMonth s < TOTAL_MONTHS)%nat ->
  List.NoDup (map name (agents s)) ->
  agents s !! i = Some ai ->
  alive ai = false ->
  exists actions s' g',
    simulateMonth econ s g = (Some actions, s', g') /\
    currentMonth s' = S (currentMonth s) /\
    agents s' !! i = Some ai /\
    actions !! name ai = Some "BANKRUPT"%string.
Proof.
  intros Hm Hnd Hi Hdead. unfold simulateMonth.
  apply Nat.leb_gt in Hm. rewrite Hm.
  pose proof (forEach_agent_dead econ (agents s) ∅ g i ai Hnd Hi Hdead)
    as [Hkeep Hlabel].
  destruct (forEach_agent econ (agents s) ∅ g) as [[ags actions] g'].
  cbn [fst snd] in *. eexists actions, _, g'.
  split; [reflexivity|]. split; [reflexivity|]. split; assumption.
Qed.

(** Through [n] callbacks the driver emits [min n (TOTAL_MONTHS - m)]
    action maps from month [m], each with ["BANKRUPT"] under the name of
    a dead agent, and the agent keeps its state. *)
Lemma simulate_dead
    (econ : Economy) (n : nat) (s : Sim) (g : RNG) (i : nat) (ai : Agent) :
  List.NoDup (map name (agents s)) ->
  agents s !! i = Some ai ->
  alive ai = false ->
  agents (simulate econ n s g).1.2 !! i = Some ai /\
  length (simulate econ n s g).1.1
    = Nat.min n (TOTAL_MONTHS - currentMonth s) /\
  Forall (fun out : nat * ActionMap =>
            out.2 !! name ai = Some "BANKRUPT"%string)
    (simulate econ n s g).1.1.
Proof.
  revert s g. induction n as [|n IH]; intros s g Hnd Hi Hdead.
  - cbn. split; [exact Hi|]. split; [reflexivity | constructor].
  - cbn [simulate]. unfold simulateMonth.
    destruct (TOTAL_MONTHS <=? currentMonth s)%nat eqn:Hm.
    + apply Nat.leb_le in Hm. cbn [fst snd length].
      split; [exact Hi|]. split; [lia | constructor].
    + apply Nat.leb_gt in Hm.
      pose proof (forEach_agent_names econ (agents s) ∅ g) as Hnames.
      pose proof (forEach_agent_dead econ (agents s) ∅ g i ai Hnd Hi Hdead)
        as [Hkeep Hlabel].
      destruct (forEach_agent econ (agents s) ∅ g) as [[ags actions] g'].
      cbn [fst snd] in *.
      set (s' := {| currentMonth := S (currentMonth s); agents := ags |}).
      assert (Hnd' : List.NoDup (map name (agents s')))
        by (cbn; rewrite Hnames; exact Hnd).
      specialize (IH s' g' Hnd' Hkeep Hdead).
      destruct (simulate econ n s' g') as [[out s''] g''].
      cbn [fst snd length] in *. destruct IH as (IHa & IHl & IHo).
      split; [exact IHa|].
      split; [rewrite IHl; unfold s'; cbn [currentMonth]; lia|].
      constructor; [exact Hlabel | exact IHo].
Qed.

(** C5. Death is terminal.  No step of the month sets [alive] (only the
    final insolvency check does, to false), so a month run on a dead agent
    would leave it dead.  The driver runs no step for a dead agent: its
    callback returns the agent and the tape as they are and writes the
    label ["BANKRUPT"].  On a population with distinct names, every call
    of [simulateMonth] before the horizon emits an action map that has
    ["BANKRUPT"] under the dead agent's name and keeps the agent's state;
    through [n] callbacks from month [m] the driver emits
    [min n (TOTAL_MONTHS - m)] maps, each of them with that entry, and the
    agent's state at the end is the one it died in. *)
Theorem death_is_terminal (econ : Economy) :
  (forall ai g a,
     alive (processIncome ai g).1 = alive ai /\
     alive (processExpenses ai) = alive ai /\
     alive (randomEvents econ ai g).1 = alive ai /\
     alive (executeAction ai a) = alive ai /\
     alive (decisionEngine ai g).1.2 = alive ai /\
     alive (applyInvestments ai g).1 = alive ai /\
     alive (updateStress ai) = alive ai) /\
  (forall ai g, alive ai = false -> alive (runMonth econ ai g).1.2 = false) /\
  (forall ai (actions : ActionMap) g,
     alive ai = false ->
     simulateAgent econ ai actions g
       = (ai, <[name ai := "BANKRUPT"%string]> actions, g)) /\
  (forall s g i ai,
     (currentMonth s < TOTAL_MONTHS)%nat ->
     List.NoDup (map name (agents s)) ->
     agents s !! i = Some ai ->
     alive ai = false ->
     exists actions s' g',
       simulateMonth econ s g = (Some actions, s', g') /\
       currentMonth s' = S (currentMonth s) /\
       agents s' !! i = Some ai /\
       actions !! name ai = Some "BANKRUPT"%string) /\
  (forall n s g i ai,
     List.NoDup (map name (agents s)) ->
     agents s !! i = Some ai ->
     alive ai = false ->
     agents (simulate econ n s g).1.2 !! i = Some ai /\
     length (simulate econ n s g).1.1
       = Nat.min n (TOTAL_MONTHS - currentMonth s) /\
     Forall (fun out : nat * ActionMap =>
               out.2 !! name ai = Some "BANKRUPT"%string)
       (simulate econ n s g).1.1).
Proof.
  split; [intros ai g a; apply steps_keep_alive|].
  split; [intros ai g; apply runMonth_stays_dead|].
  split; [intros ai actions g; apply simulateAgent_dead|].
  split; [intros s g i ai; apply simulateMonth_dead|].
  intros n s g i ai. apply simulate_dead.
Qed.

Lemma death_is_terminal_witness :
  (currentMonth sample_sim < TOTAL_MONTHS)%nat /\
  List.NoDup (map name (agents sample_sim)) /\
  agents sample_sim !! 1%nat = Some bankrupt_agent /\
  alive bankrupt_agent = false /\
  (exists actions s' g',
     simulateMonth economy sample_sim (constant_rng 0.5)
       = (Some actions, s', g') /\
     agents s' !! 1%nat = Some bankrupt_agent /\
     actions !! "Risky"%string = Some "BANKRUPT"%string) /\
  agents (simulate economy 3 sample_sim (constant_rng 0.5)).1.2 !! 1%nat
    = Some bankrupt_agent /\
  length (simulate economy 3 sample_sim (constant_rng 0.5)).1.1 = 3%nat /\
  Forall (fun out : nat * ActionMap =>
            out.2 !! "Risky"%string = Some "BANKRUPT"%string)
    (simulate economy 3 sample_sim (constant_rng 0.5)).1.1.
Proof.
  assert (Hm : (currentMonth sample_sim < TOTAL_MONTHS)%nat)
    by (cbn; unfold TOTAL_MONTHS; lia).
  assert (Hnd : List.NoDup (map name (agents sample_sim))).
  { cbn. repeat constructor; cbn; intuition discriminate. }
  split; [exact Hm|]. split; [exact Hnd|].
  split; [reflexivity|]. split; [reflexivity|].
  destruct (death_is_terminal economy) as (_ & _ & _ & Hmonth & Hsim).
  split.
  - destruct (Hmonth sample_sim (constant_rng 0.5) 1%nat bankrupt_agent
                Hm Hnd eq_refl eq_refl)
      as (actions & s' & g' & Heq & _ & Hkeep & Hlabel).
    exists actions, s', g'. split; [exact Heq|]. split; [exact Hkeep|].
    exact Hlabel.
  - exact (Hsim 3%nat sample_sim (constant_rng 0.5) 1%nat bankrupt_agent
             Hnd eq_refl eq_refl).
Defined.

(** ** The driver stays within the reachable states *)

Lemma runMonth_uniform (econ : Economy) (ai : Agent) (g : RNG) :
  uniform g -> uniform (runMonth econ ai g).2.
Proof.
  intros Hg. unfold runMonth.
  pose proof (processIncome_uniform ai g Hg) as U0.
  destruct (processIncome ai g) as [a0 g0]. cbn [snd] in U0.
  pose proof (randomEvents_tape econ (processExpenses a0) g0) as U2.
  destruct (randomEvents econ (processExpenses a0) g0) as [a2 g2].
  cbn [snd] in U2.
  pose proof (decisionEngine_tape a2 g2) as U3.
  destruct (decisionEngine a2 g2) as [[act a3] g3]. cbn [snd] in U3.
  unfold applyInvestments, random. cbn [snd].
  intros n. rewrite U3, U2. unfold random. cbn [snd]. apply U0.
Qed.

Lemma simulateAgent_reachable
    (econ : Economy) (ai : Agent) (actions : ActionMap) (g : RNG) :
  reachable econ ai -> uniform g ->
  reachable econ (simulateAgent econ ai actions g).1.1 /\
  uniform (simulateAgent econ ai actions g).2.
Proof.
  intros Hr Hg. unfold simulateAgent. destruct (alive ai) eqn:Hal.
  - pose proof (runMonth_uniform econ ai g Hg) as Hu.
    assert (Hr' : reachable econ (runMonth econ ai g).1.2).
    { eapply reachable_evolves; [exact Hr|].
      apply evolves_month; [apply evolves_refl | exact Hal | exact Hg]. }
    destruct (runMonth econ ai g) as [[act ai'] g']. cbn [fst snd] in *.
    split; assumption.
  - cbn [fst snd]. split; assumption.
Qed.

Lemma forEach_agent_reachable
    (econ : Economy) (ags : list Agent) (actions : ActionMap) (g : RNG) :
  Forall (reachable econ) ags -> uniform g ->
  Forall (reachable econ) (forEach_agent econ ags actions g).1.1 /\
  uniform (forEach_agent econ ags actions g).2.
Proof.
  revert actions g. induction ags as [|ai rest IH]; intros actions g Hall Hg.
  - cbn. split; [constructor | exact Hg].
  - apply Forall_cons in Hall as [Hai Hrest]. cbn [forEach_agent].
    destruct (simulateAgent_reachable econ ai actions g Hai Hg) as [Hr' Hg'].
    destruct (simulateAgent econ ai actions g) as [[ai' actions'] g'].
    cbn [fst snd] in Hr', Hg'.
    destruct (IH actions' g' Hrest Hg') as [IHr IHg].
    destruct (forEach_agent econ rest actions' g') as [[rest' actions''] g''].
    cbn [fst snd] in *. split; [constructor; assumption | exact IHg].
Qed.

(** Every state of every agent that the driver produces is reachable. *)
Lemma simulate_reachable (econ : Economy) (n : nat) (s : Sim) (g : RNG) :
  Forall (reachable econ) (agents s) -> uniform g ->
  Forall (reachable econ) (agents (simulate econ n s g).1.2).
Proof.
  revert s g. induction n as [|n IH]; intros s g Hall Hg; [exact Hall|].
  cbn [simulate]. unfold simulateMonth.
  destruct (TOTAL_MONTHS <=? currentMonth s)%nat; [exact Hall|].
  destruct (forEach_agent_reachable econ (agents s) ∅ g Hall Hg) as [Hr Hu].
  destruct (forEach_agent econ (agents s) ∅ g) as [[ags actions] g'].
  cbn [fst snd] in Hr, Hu.
  specialize (IH {| currentMonth := S (currentMonth s); agents := ags |}
                g' Hr Hu).
  destruct (simulate econ n _ g') as [[out s''] g'']. exact IH.
Qed.

(** The population of the script: distinct names, traits in range, and
    every state the driver produces from it is reachable. *)
Lemma initial_population (econ : Economy) (n : nat) (g : RNG) :
  List.NoDup (map name (agents initial_sim)) /\
  Forall traits_in_range (agents initial_sim) /\
  (uniform g ->
   Forall (reachable econ) (agents (simulate econ n initial_sim g).1.2)).
Proof.
  split; [|split].
  - cbn. repeat constructor; cbn; intuition discriminate.
  - repeat constructor; cbn; lra.
  - apply simulate_reachable.
    repeat constructor; eexists _, _, _, _, _; apply evolves_refl.
Qed.

(** * Further properties of the engine *)

(** ** The executor *)

(** X1. No action creates money.  [invest] moves the amount
    [cash * 0.2] from cash into investments (a negative amount when cash
    is negative) and keeps the net worth; [start_business] lowers cash and
    net worth by 5000; [save] and [job_search] change neither.  Cash and
    investments apart, only [start_business] changes [business] (to a
    business with revenue 1000), only [job_search] changes [employed]
    (to true, whatever it was), and no other field changes. *)
Theorem executeAction_accounting (ai : Agent) (a : Action) :
  let ai' := executeAction ai a in
  cash ai' == action_cash a (cash ai) /\
  investments ai' ==
    investments ai + (if Action_eqb a invest then cash ai * 0.2 else 0) /\
  netWorth ai' ==
    netWorth ai - (if Action_eqb a start_business then 5000 else 0) /\
  employed ai' = (if Action_eqb a job_search then true else employed ai) /\
  business ai' =
    (if Action_eqb a start_business then Some {| revenue := 1000 |}
     else business ai) /\
  static_part ai' = static_part ai /\ stress ai' = stress ai /\
  alive ai' = alive ai.
Proof.
  unfold netWorth, action_cash.
  destruct a; cbn; repeat split; try reflexivity; lra.
Qed.

(** ** Investment returns *)

Lemma return_factor_range (u : Q) :
  0 <= u -> u < 1 -> 0.95 <= return_factor u /\ return_factor u <= 1.05.
Proof. unfold return_factor. intros; split; lra. Qed.

(** In binary64 the factor reaches 1.05 at the largest draw below 1. *)
#[warnings="-inexact-float"]
Lemma return_factor64_reaches_upper_end :
  (largest_draw <? 1)%float = true /\
  return_factor64 largest_draw = 1.05%float.
Proof. vm_compute. split; reflexivity. Qed.

(** X2. [applyInvestments] consumes one draw [u] and multiplies the
    investments by [1 + (u - 0.5) * 0.1], touching nothing else.  For a
    draw in [0,1) the factor lies in [0.95, 1.05], both ends included: the
    investments keep their sign, and non-negative investments move by at
    most 5 percent. *)
Theorem applyInvestments_return (ai : Agent) (g : RNG) :
  let u := g 0%nat in
  let ai' := (applyInvestments ai g).1 in
  ai' = set_investments (investments ai * return_factor u) ai /\
  (forall n, (applyInvestments ai g).2 n = g (1 + n)%nat) /\
  (0 <= u -> u < 1 ->
     (0.95 <= return_factor u /\ return_factor u <= 1.05) /\
     (0 <= investments ai ->
        investments ai * 0.95 <= investments ai' /\
        investments ai' <= investments ai * 1.05) /\
     (investments ai <= 0 -> investments ai' <= 0)).
Proof.
  cbn zeta. split; [reflexivity|]. split; [reflexivity|].
  intros H0 H1. destruct (return_factor_range _ H0 H1) as [Hlo Hhi].
  split; [split; assumption|].
  unfold applyInvestments, random. cbn [fst investments set_investments].
  fold (return_factor (g 0%nat)).
  generalize dependent (return_factor (g 0%nat)). intros f Hlo Hhi.
  split; [intros Hpos; split|intros Hneg]; nra.
Qed.

Lemma applyInvestments_return_witness :
  investments veteran * 0.95
    <= investments (applyInvestments veteran (constant_rng 0.5)).1.
Proof.
  destruct (applyInvestments_return veteran (constant_rng 0.5))
    as (_ & _ & Hrange).
  destruct Hrange as (_ & Hpos & _); [unfold constant_rng; lra ..|].
  apply Hpos. cbn. lra.
Defined.

(** ** Forbidden actions *)

(** With traits in range and a finite runway, [invest] (runway above 3)
    or else [save] scores at least −7.5 after the jitter. *)
Lemma save_or_invest_floor (ai : Agent) (g : RNG) :
  ~ fixed_costs ai == 0 ->
  traits_in_range ai ->
  uniform g ->
  let sc := (jittered_scores ai g).1 in
  let b := if Qltb 3 (cash ai / fixed_costs ai) then invest else save in
  exists q, sc b = Num q /\ -7.5 <= q.
Proof.
  intros Hnz [[Hr0 Hr1] [Hd0 Hd1]] Hg sc b. subst sc b.
  destruct (jitter_range _ (proj1 (Hg 0%nat)) (proj2 (Hg 0%nat))).
  destruct (jitter_range _ (proj1 (Hg 1%nat)) (proj2 (Hg 1%nat))).
  destruct (Qltb 3 (cash ai / fixed_costs ai)) eqn:Hrunway;
    rewrite jittered_scores_at; unfold base_scores;
    rewrite (getContext_finite ai Hnz);
    revert Hrunway; generalize (cash ai / fixed_costs ai); intros em Hrunway;
    cbn [position JS.add JS.sub JS.mul JS.gt JS.neg]; rewrite ?Hrunway;
    cbn [position JS.add JS.sub JS.mul JS.gt JS.neg];
    eexists; (split; [reflexivity|]); qbool; lra.
Qed.

(** An action whose score before the jitter is the sentinel −100 is not
    the one chosen. *)
Lemma sentinel_not_chosen (ai : Agent) (g : RNG) (a : Action) :
  ~ fixed_costs ai == 0 ->
  traits_in_range ai ->
  uniform g ->
  base_scores ai (getContext ai) a = Num (-100) ->
  (decisionEngine ai g).1.1 <> a.
Proof.
  intros Hnz Htr Hg Hbase.
  destruct (save_or_invest_floor ai g Hnz Htr Hg) as (q & Hq & Hfloor).
  cbn zeta in Hq.
  rewrite decisionEngine_unfold. cbn zeta. cbn [fst snd].
  set (sc := (jittered_scores ai g).1) in *.
  assert (Hi : JS.is_nan (sc invest) = false)
    by (apply jittered_scores_not_nan; discriminate).
  assert (Hb : JS.is_nan (sc start_business) = false)
    by (apply jittered_scores_not_nan; discriminate).
  destruct (pick_best_last_max sc Hi Hb) as [Hmax _].
  intros Hpick. rewrite Hpick in Hmax.
  set (b := if Qltb 3 (cash ai / fixed_costs ai) then invest else save) in *.
  specialize (Hmax b). rewrite Hq in Hmax.
  unfold sc in Hmax. rewrite jittered_scores_at, Hbase in Hmax.
  destruct (jitter_range _ (proj1 (Hg (position a)))
              (proj2 (Hg (position a)))).
  cbn [JS.add JS.gt] in Hmax. qbool. lra.
Qed.

(** [invest] is chosen only with more than three months of runway. *)
Lemma invest_needs_runway (ai : Agent) (g : RNG) :
  ~ fixed_costs ai == 0 ->
  traits_in_range ai ->
  uniform g ->
  (decisionEngine ai g).1.1 = invest -> 3 < cash ai / fixed_costs ai.
Proof.
  intros Hnz Htr Hg Hact.
  destruct (Qltb 3 (cash ai / fixed_costs ai)) eqn:Hrunway;
    [qbool; exact Hrunway|].
  exfalso. apply (sentinel_not_chosen ai g invest Hnz Htr Hg); [|exact Hact].
  unfold base_scores. rewrite (getContext_finite ai Hnz).
  cbn [JS.gt]. rewrite Hrunway. reflexivity.
Qed.

(** [start_business] is chosen only with more than 5000 in cash and no
    business. *)
Lemma start_business_guard (ai : Agent) (g : RNG) :
  ~ fixed_costs ai == 0 ->
  traits_in_range ai ->
  uniform g ->
  (decisionEngine ai g).1.1 = start_business ->
  5000 < cash ai /\ business ai = None.
Proof.
  intros Hnz Htr Hg Hact.
  destruct (Qltb 5000 (cash ai)) eqn:Hcash, (business ai) as [b|] eqn:Hbus;
    try (split; [qbool; exact Hcash | reflexivity]);
    exfalso;
    apply (sentinel_not_chosen ai g start_business Hnz Htr Hg);
    try exact Hact;
    unfold base_scores; rewrite Hcash, Hbus; reflexivity.
Qed.

(** X3. The decision engine never chooses a forbidden action.  For an
    agent with non-zero fixed costs and traits in [0,1], and draws in
    [0,1): [invest] is chosen only with more than three months of runway,
    [start_business] only with more than 5000 in cash and no business yet,
    [job_search] only when unemployed. *)
Theorem decisionEngine_respects_guards (ai : Agent) (g : RNG) :
  ~ fixed_costs ai == 0 ->
  traits_in_range ai ->
  uniform g ->
  let action := (decisionEngine ai g).1.1 in
  (action = invest -> 3 < cash ai / fixed_costs ai) /\
  (action = start_business -> 5000 < cash ai /\ business ai = None) /\
  (action = job_search -> employed ai = false).
Proof.
  intros Hnz Htr Hg action. subst action.
  pose proof (sentinel_not_chosen ai g) as Hsent.
  split; [|split]; intros Hact.
  - apply (invest_needs_runway ai g Hnz Htr Hg Hact).
  - apply (start_business_guard ai g Hnz Htr Hg Hact).
  - destruct (employed ai) eqn:Hemp; [|reflexivity].
    exfalso. apply (Hsent job_search Hnz Htr Hg); [|exact Hact].
    unfold base_scores. rewrite Hemp. reflexivity.
Qed.

Lemma traits_veteran : traits_in_range veteran.
Proof. unfold traits_in_range. cbn. repeat split; lra. Qed.

Lemma decisionEngine_respects_guards_witness :
  ~ fixed_costs veteran == 0 /\
  (decisionEngine veteran (constant_rng 0.5)).1.1 = job_search /\
  employed veteran = false.
Proof.
  assert (Hnz : ~ fixed_costs veteran == 0) by (cbn; discriminate).
  split; [exact Hnz|]. split; [vm_compute; reflexivity|].
  apply (decisionEngine_respects_guards veteran (constant_rng 0.5)
           Hnz traits_veteran uniform_constant_half).
  vm_compute. reflexivity.
Defined.

(** ** One month, step by step *)


(** The state at the decision, from the state at the start of the
    month. *)
Lemma decision_state_frame (econ : Economy) (ai : Agent) (g : RNG) :
  let a2 := (decision_state econ ai g).1 in
  static_part a2 = static_part ai /\ investments a2 = investments ai /\
  business a2 = business ai /\ alive a2 = alive ai.
Proof.
  cbn zeta. unfold decision_state.
  destruct (randomEvents_frame econ (processExpenses (processIncome ai g).1)
              (processIncome ai g).2) as (Hs & Hi & Hb & Ha).
  rewrite Hs, Hi, Hb, Ha, <- (processIncome_frame ai g). repeat split.
Qed.

Lemma decision_state_tape (econ : Economy) (ai : Agent) (g : RNG) (n : nat) :
  (decision_state econ ai g).2 n
    = g ((if sideHustle ai then 2 else 1) + n)%nat.
Proof.
  unfold decision_state. rewrite randomEvents_tape, processIncome_tape.
  destruct (sideHustle ai); reflexivity.
Qed.

Lemma decision_state_uniform (econ : Economy) (ai : Agent) (g : RNG) :
  uniform g -> uniform (decision_state econ ai g).2.
Proof. intros Hg n. rewrite decision_state_tape. apply Hg. Qed.

Lemma static_part_rent (ai ai' : Agent) :
  static_part ai' = static_part ai -> rent ai' = rent ai.
Proof. unfold static_part. intros H. injection H. auto. Qed.

(** The fields of the month's result that the last three steps write. *)
Lemma runMonth_result (econ : Economy) (ai : Agent) (g : RNG) :
  let ds := decision_state econ ai g in
  let action := (decisionEngine ds.1 ds.2).1.1 in
  let a3 := executeAction ds.1 action in
  let ai' := (runMonth econ ai g).1.2 in
  (runMonth econ ai g).1.1 = action /\
  cash ai' = cash a3 /\
  investments ai' = investments a3 * return_factor (ds.2 4%nat) /\
  employed ai' = employed a3 /\
  stress ai' =
    Qmax 0 ((if Qltb (cash a3) (rent ai) then stress ds.1 + 15
             else stress ds.1) - 5) /\
  (forall n, (runMonth econ ai g).2 n = ds.2 (5 + n)%nat).
Proof.
  cbn zeta. unfold runMonth.
  destruct (decision_state_frame econ ai g) as (Hst & _).
  apply static_part_rent in Hst. revert Hst. unfold decision_state.
  destruct (processIncome ai g) as [a0 g0]. cbn [fst snd].
  destruct (randomEvents econ (processExpenses a0) g0) as [a2 g2].
  cbn [fst snd]. intros Hst.
  pose proof (decisionEngine_executes a2 g2) as H3.
  pose proof (decisionEngine_tape a2 g2) as T3.
  destruct (decisionEngine a2 g2) as [[act a3] g3]. cbn [fst snd] in *.
  destruct (executeAction_frame a2 act) as (Hs3 & Ht3 & _).
  apply static_part_rent in Hs3. rewrite <- H3 in *. clear H3.
  assert (Hrent : rent ai = rent a3) by congruence.
  unfold applyInvestments, random, updateStress, return_factor.
  cbn [fst snd cash rent stress investments employed set_investments
       set_stress set_alive].
  rewrite Hrent, <- Ht3, T3.
  split; [reflexivity|].
  destruct (Qltb (cash a3) (rent a3));
    cbn [cash set_stress set_investments];
    destruct (Qltb (cash a3) 0); cbn; repeat split.
Qed.

(** X4. One [runMonth] consumes exactly six draws, seven when the agent
    has a side hustle: the tape it returns is the tape it received, that
    many draws further. *)
Theorem runMonth_draws (econ : Economy) (ai : Agent) (g : RNG) (n : nat) :
  (runMonth econ ai g).2 n = g (draws_per_month ai + n)%nat.
Proof.
  destruct (runMonth_result econ ai g) as (_ & _ & _ & _ & _ & Htape).
  rewrite Htape, decision_state_tape. unfold draws_per_month.
  destruct (sideHustle ai); reflexivity.
Qed.

Lemma action_cash_compat (a : Action) (c c' : Q) :
  c == c' -> action_cash a c == action_cash a c'.
Proof. intros Hc. destruct a; cbn; rewrite Hc; reflexivity. Qed.

Lemma executeAction_cash (ai : Agent) (a : Action) :
  cash (executeAction ai a) == action_cash a (cash ai).
Proof. destruct a; cbn; lra. Qed.

Lemma decision_state_fired (econ : Economy) (ai : Agent) (g : RNG) :
  let k := if sideHustle ai then 1%nat else 0%nat in
  let a1 := processExpenses (processIncome ai g).1 in
  (decision_state econ ai g).1 =
    match fired_branch econ (g k) with
    | RecessionJobLoss | JobLoss =>
        set_stress (stress a1 + 20) (set_employed false a1)
    | UnexpectedExpense => set_cash (cash a1 - 2000) a1
    | NoEvent => a1
    end.
Proof.
  cbn zeta. unfold decision_state. rewrite randomEvents_fired.
  rewrite processIncome_tape. destruct (sideHustle ai); reflexivity.
Qed.

(** The cash at the decision. *)
Lemma decision_state_cash (econ : Economy) (ai : Agent) (g : RNG) :
  cash (decision_state econ ai g).1 ==
    cash ai
    + ((if employed ai then salary ai else 0)
       + (if sideHustle ai then sideHustleDraw (g 0%nat) else 0)
       + match business ai with Some b => revenue b | None => 0 end)
    - fixed_costs ai
    - match fired_branch econ (g (if sideHustle ai then 1 else 0)%nat) with
      | UnexpectedExpense => 2000
      | _ => 0
      end.
Proof.
  rewrite decision_state_fired. cbn zeta.
  pose proof (processIncome_cash ai g) as Hinc.
  pose proof (processIncome_frame ai g) as Hfr.
  assert (Hcosts : fixed_costs (processIncome ai g).1 = fixed_costs ai)
    by (rewrite <- Hfr; reflexivity).
  unfold processExpenses. fold (fixed_costs (processIncome ai g).1).
  rewrite Hcosts.
  destruct (fired_branch econ _); cbn [cash set_cash set_stress set_employed];
    rewrite Hinc; lra.
Qed.

(** X5. The cash flow of a month.  At the decision the cash is the cash
    at the start, plus the income of the sources present, minus the fixed
    costs, minus 2000 when the unexpected-expense branch fired; the cash
    at the end of the month is what the chosen action makes of that
    amount.  Nothing after the action touches cash. *)
Theorem runMonth_cash_flow (econ : Economy) (ai : Agent) (g : RNG) :
  let k := if sideHustle ai then 1%nat else 0%nat in
  let income :=
    (if employed ai then salary ai else 0)
    + (if sideHustle ai then sideHustleDraw (g 0%nat) else 0)
    + match business ai with Some b => revenue b | None => 0 end in
  let mid :=
    cash ai + income - fixed_costs ai
    - match fired_branch econ (g k) with
      | UnexpectedExpense => 2000
      | _ => 0
      end in
  cash (decision_state econ ai g).1 == mid /\
  cash (runMonth econ ai g).1.2 == action_cash (runMonth econ ai g).1.1 mid.
Proof.
  cbn zeta. pose proof (decision_state_cash econ ai g) as Hmid.
  split; [exact Hmid|].
  destruct (runMonth_result econ ai g) as (Hact & Hcash & _).
  rewrite Hcash, Hact, executeAction_cash.
  apply action_cash_compat, Hmid.
Qed.

(** ** Stress *)

(** X6. The stress of a month.  A job loss (either branch) adds 20, cash
    below the rent at the end of the month adds 15, then 5 is taken off
    and the result is floored at 0.  So a month lowers stress by at most 5
    and, from a non-negative level, raises it by at most 30. *)
Theorem runMonth_stress_change (econ : Economy) (ai : Agent) (g : RNG) :
  let k := if sideHustle ai then 1%nat else 0%nat in
  let ai' := (runMonth econ ai g).1.2 in
  let shock :=
    match fired_branch econ (g k) with
    | RecessionJobLoss | JobLoss => 20
    | _ => 0
    end in
  let penalty := if Qltb (cash ai') (rent ai) then 15 else 0 in
  stress ai' == Qmax 0 (stress ai + shock + penalty - 5) /\
  stress ai - 5 <= stress ai' /\
  (0 <= stress ai -> stress ai' <= stress ai + 30).
Proof.
  cbn zeta.
  destruct (runMonth_result econ ai g) as (_ & Hcash & _ & _ & Hstress & _).
  rewrite Hstress, Hcash. clear Hstress Hcash.
  assert (Hs2 : stress (decision_state econ ai g).1 =
                match fired_branch econ
                        (g (if sideHustle ai then 1 else 0)%nat) with
                | RecessionJobLoss | JobLoss => stress ai + 20
                | _ => stress ai
                end).
  { rewrite decision_state_fired. cbn zeta.
    assert (Hst : stress (processExpenses (processIncome ai g).1) = stress ai)
      by (rewrite <- (processIncome_frame ai g); reflexivity).
    destruct (fired_branch econ _);
      cbn [stress set_cash set_stress set_employed]; rewrite Hst; reflexivity. }
  rewrite Hs2. clear Hs2.
  generalize (cash (executeAction (decision_state econ ai g).1
     (decisionEngine (decision_state econ ai g).1
        (decision_state econ ai g).2).1.1)).
  intros c.
  destruct (fired_branch econ _), (Qltb c (rent ai));
    match goal with
    | |- Qmax 0 ?x == Qmax 0 ?y /\ _ =>
        assert (Hxy : x == y) by lra;
        destruct (Q.max_spec 0 x) as [[Hlt Hmax]|[Hle Hmax]];
        destruct (Q.max_spec 0 y) as [[Hlt' Hmax']|[Hle' Hmax']];
        rewrite ?Hmax, ?Hmax'; repeat split; intros; lra
    end.
Qed.

Lemma runMonth_stress_change_witness :
  0 <= stress veteran /\
  stress (runMonth economy veteran (constant_rng 0.5)).1.2
    <= stress veteran + 30.
Proof.
  assert (H0 : 0 <= stress veteran) by (cbn; lra).
  split; [exact H0|].
  apply (runMonth_stress_change economy veteran (constant_rng 0.5)), H0.
Defined.

(** ** Invariants of the reachable states *)

(** X7. In every reachable state the agent is alive exactly when its
    cash is not negative: the insolvency check is the only writer of
    [alive], and a dead agent is never run again. *)
Theorem reachable_alive_iff_solvent (econ : Economy) (ai : Agent) :
  reachable econ ai ->
  (alive ai = true <-> 0 <= cash ai).
Proof.
  intros (nm & rt & d & i & col & Hev).
  induction Hev as [|ai' g Hev IH Hal Hg].
  - cbn. split; [intros _; lra | reflexivity].
  - destruct (runMonth_frame econ ai' g) as (_ & _ & Halive & _).
    rewrite Halive, Hal.
    destruct (Qltb (cash (runMonth econ ai' g).1.2) 0) eqn:Hneg; qbool;
      split; intros; try reflexivity; try discriminate; lra.
Qed.

Lemma reachable_alive_iff_solvent_witness :
  reachable economy founder /\ 0 <= cash founder.
Proof.
  split; [exact reachable_founder|].
  apply (reachable_alive_iff_solvent economy founder reachable_founder).
  vm_compute. reflexivity.
Defined.

Lemma return_factor_pos (u : Q) : 0 <= u -> u < 1 -> 0 < return_factor u.
Proof. intros H0 H1. destruct (return_factor_range u H0 H1). lra. Qed.

(** X8. With traits in [0,1], the investments of a reachable agent are
    never negative: [invest] is chosen only with a positive runway, hence
    moves a positive amount, and the monthly return multiplies by a
    positive factor. *)
Theorem reachable_investments_nonneg (econ : Economy) (ai : Agent) :
  reachable econ ai ->
  traits_in_range ai ->
  0 <= investments ai.
Proof.
  intros Hreach Htr. destruct Hreach as (nm & rt & d & i & col & Hev).
  induction Hev as [|ai' g Hev IH Hal Hg].
  - cbn. lra.
  - assert (Hst' : static_part (runMonth econ ai' g).1.2 = static_part ai')
      by apply (runMonth_frame econ ai' g).
    assert (Htr' : traits_in_range ai').
    { apply (static_part_traits _ _ (eq_sym Hst')), Htr. }
    specialize (IH Htr').
    assert (Hcosts : fixed_costs ai' = 800 + 400 + 300).
    { apply (reachable_fixed_costs econ). exists nm, rt, d, i, col. exact Hev. }
    destruct (runMonth_result econ ai' g) as (_ & _ & Hinv & _).
    rewrite Hinv. clear Hinv.
    destruct (decision_state_frame econ ai' g) as (Hs2 & Hi2 & _).
    pose proof (decision_state_uniform econ ai' g Hg) as Hg2.
    pose proof (invest_needs_runway (decision_state econ ai' g).1
                  (decision_state econ ai' g).2) as Hguard.
    destruct (static_part_fields _ _ Hs2) as (_ & Hc2 & _).
    pose proof (static_part_traits _ _ Hs2 Htr') as Htr2.
    generalize dependent (decision_state econ ai' g). intros [a2 g2].
    cbn [fst snd]. intros Hs2 Hi2 Hg2 Hguard Hc2 Htr2.
    rewrite Hcosts in Hc2.
    assert (Hnz : ~ fixed_costs a2 == 0) by (rewrite Hc2; discriminate).
    specialize (Hguard Hnz Htr2 Hg2).
    pose proof (return_factor_pos _ (proj1 (Hg2 4%nat)) (proj2 (Hg2 4%nat)))
      as Hf.
    assert (H3 : 0 <= investments (executeAction a2 (decisionEngine a2 g2).1.1)).
    { destruct (decisionEngine a2 g2).1.1 eqn:Hact; cbn; rewrite ?Hi2; trivial.
      specialize (Hguard eq_refl). rewrite Hc2 in Hguard.
      assert (Hdiv : cash a2 == cash a2 / (800 + 400 + 300) * (800 + 400 + 300))
        by (field; discriminate).
      revert Hdiv Hguard. generalize (cash a2 / (800 + 400 + 300)).
      intros em Hdiv Hguard. rewrite Hdiv. lra. }
    revert H3 Hf.
    generalize (investments (executeAction a2 (decisionEngine a2 g2).1.1)).
    generalize (return_factor (g2 4%nat)). intros f v Hv Hf. nra.
Qed.

Lemma reachable_investments_nonneg_witness :
  reachable economy founder /\ traits_in_range founder /\
  0 <= investments founder.
Proof.
  split; [exact reachable_founder|]. split; [exact traits_founder|].
  apply (reachable_investments_nonneg economy founder
           reachable_founder traits_founder).
Defined.

(** X9. Division by zero is out of reach: in every reachable state, and
    in the state at the month's decision, the fixed costs are 1500, so the
    runway is the finite quotient and all four scores are finite numbers
    (no [Infinity], no [NaN]), whatever the draws. *)
Theorem reachable_scores_finite (econ : Economy) (ai : Agent) :
  reachable econ ai ->
  forall (g g' : RNG) (a2 : Agent),
    a2 = ai \/ a2 = (decision_state econ ai g).1 ->
    fixed_costs a2 = 800 + 400 + 300 /\
    emergencyMonths (getContext a2) = Num (cash a2 / (800 + 400 + 300)) /\
    (forall a, JS.is_finite ((jittered_scores a2 g').1 a) = true).
Proof.
  intros Hreach g g' a2 Ha2.
  assert (Hc : fixed_costs a2 = 800 + 400 + 300).
  { rewrite <- (reachable_fixed_costs econ ai Hreach).
    destruct Ha2 as [->| ->]; [reflexivity|].
    apply static_part_fields, decision_state_frame. }
  assert (Hnz : ~ fixed_costs a2 == 0) by (rewrite Hc; discriminate).
  pose proof (getContext_finite a2 Hnz) as Hem. rewrite Hc in Hem.
  split; [exact Hc|]. split; [exact Hem|].
  intros a. rewrite jittered_scores_at. unfold base_scores. rewrite Hem.
  destruct a; cbn [JS.add JS.sub JS.mul JS.gt JS.neg].
  - reflexivity.
  - destruct (Qltb 3 _); reflexivity.
  - destruct (Qltb 5000 (cash a2) && negb (truthy (business a2)));
      reflexivity.
  - destruct (negb (employed a2)); reflexivity.
Qed.

Lemma reachable_scores_finite_witness :
  reachable economy founder /\
  JS.is_finite ((jittered_scores founder (constant_rng 0.5)).1 save) = true.
Proof.
  split; [exact reachable_founder|].
  apply (reachable_scores_finite economy founder reachable_founder
           (constant_rng 0.5) (constant_rng 0.5) founder).
  left. reflexivity.
Defined.

(** ** The action map *)

Lemma label_in_action_labels (a : Action) : In (label a) action_labels.
Proof. destruct a; cbn; auto 6. Qed.

Lemma label_not_bankrupt (a : Action) : label a <> "BANKRUPT"%string.
Proof. destruct a; discriminate. Qed.

(** What the callback of one agent writes under the agent's name. *)
Lemma simulateAgent_entry
    (econ : Economy) (ai : Agent) (actions : ActionMap) (g : RNG) :
  exists v,
    (simulateAgent econ ai actions g).1.2 !! name ai = Some v /\
    (if alive ai then exists a, v = label a else v = "BANKRUPT"%string).
Proof.
  unfold simulateAgent. destruct (alive ai).
  - destruct (runMonth econ ai g) as [[act ai'] g']. cbn [fst snd].
    exists (label act). split; [apply lookup_insert_eq | exists act; reflexivity].
  - cbn [fst snd]. eexists. split; [apply lookup_insert_eq | reflexivity].
Qed.

(** The entries of the action map after the [forEach]: the names of the
    agents are all present, and nothing else is written. *)
Lemma forEach_agent_entries
    (econ : Economy) (ags : list Agent) (actions : ActionMap) (g : RNG)
    (k : string) :
  let actions' := (forEach_agent econ ags actions g).1.2 in
  (In k (map name ags) ->
     exists v, actions' !! k = Some v /\ In v action_labels) /\
  (~ In k (map name ags) -> actions' !! k = actions !! k).
Proof.
  cbn zeta. split; [|apply forEach_agent_other_keys].
  revert actions g. induction ags as [|ai rest IH]; intros actions g Hk;
    [destruct Hk|].
  cbn [forEach_agent].
  pose proof (simulateAgent_entry econ ai actions g) as (v & Hv & Hlab).
  destruct (simulateAgent econ ai actions g) as [[ai' actions'] g'].
  cbn [fst snd] in Hv.
  pose proof (forEach_agent_other_keys econ rest actions' g' k) as Hother.
  specialize (IH actions' g').
  destruct (forEach_agent econ rest actions' g') as [[rest' actions''] g''].
  cbn [fst snd] in *.
  destruct (in_dec string_dec k (map name rest)) as [Hin|Hnotin];
    [apply IH, Hin|].
  destruct Hk as [Hk|Hk]; [|contradiction]. subst k.
  exists v. rewrite (Hother Hnotin). split; [exact Hv|].
  destruct (alive ai); [destruct Hlab as [a ->]; apply label_in_action_labels|].
  subst v. cbn. auto 6.
Qed.


(** ** The population driver, month by month *)

Lemma simulateMonth_end (econ : Economy) (s : Sim) (g : RNG) :
  (TOTAL_MONTHS <= currentMonth s)%nat ->
  simulateMonth econ s g = (None, s, g).
Proof.
  intros Hm. unfold simulateMonth. apply Nat.leb_le in Hm. rewrite Hm.
  reflexivity.
Qed.

Lemma simulateMonth_month (econ : Economy) (s : Sim) (g : RNG) :
  (currentMonth s < TOTAL_MONTHS)%nat ->
  exists actions s' g',
    simulateMonth econ s g = (Some actions, s', g') /\
    currentMonth s' = S (currentMonth s) /\
    agents s' = (forEach_agent econ (agents s) ∅ g).1.1 /\
    map name (agents s') = map name (agents s).
Proof.
  intros Hm. unfold simulateMonth. apply Nat.leb_gt in Hm. rewrite Hm.
  pose proof (forEach_agent_names econ (agents s) ∅ g) as Hnames.
  destruct (forEach_agent econ (agents s) ∅ g) as [[ags actions] g'].
  cbn [fst snd] in *. eexists _, _, _. repeat split. exact Hnames.
Qed.

(** X10. [simulateMonth] at and after the horizon does nothing: no month
    is counted, no agent is run, no draw is consumed, nothing is emitted.
    Before the horizon it counts one month, keeps the population (same
    names, in the same order) and emits an action map whose keys are
    exactly the names of the agents and whose values are among the four
    action labels and ["BANKRUPT"]. *)
Theorem simulateMonth_outcome (econ : Economy) (s : Sim) (g : RNG) :
  ((TOTAL_MONTHS <= currentMonth s)%nat ->
     simulateMonth econ s g = (None, s, g)) /\
  ((currentMonth s < TOTAL_MONTHS)%nat ->
     exists actions s' g',
       simulateMonth econ s g = (Some actions, s', g') /\
       currentMonth s' = S (currentMonth s) /\
       map name (agents s') = map name (agents s) /\
       (forall k, is_Some (actions !! k) <-> In k (map name (agents s))) /\
       (forall k v, actions !! k = Some v -> In v action_labels)).
Proof.
  unfold simulateMonth. split; intros Hm.
  - apply Nat.leb_le in Hm. rewrite Hm. reflexivity.
  - apply Nat.leb_gt in Hm. rewrite Hm.
    pose proof (forEach_agent_names econ (agents s) ∅ g) as Hnames.
    pose proof (forEach_agent_entries econ (agents s) ∅ g) as Hent.
    destruct (forEach_agent econ (agents s) ∅ g) as [[ags actions] g'].
    cbn [fst snd] in *. eexists _, _, _. split; [reflexivity|].
    split; [reflexivity|]. split; [exact Hnames|]. split.
    + intros k. destruct (Hent k) as [Hin Hout]. split.
      * intros [v Hv].
        destruct (in_dec string_dec k (map name (agents s))) as [Hk|Hk];
          [exact Hk|].
        rewrite (Hout Hk), lookup_empty in Hv. discriminate.
      * intros Hk. destruct (Hin Hk) as (v & Hv & _). exists v. exact Hv.
    + intros k v Hv. destruct (Hent k) as [Hin Hout].
      destruct (in_dec string_dec k (map name (agents s))) as [Hk|Hk].
      * destruct (Hin Hk) as (v' & Hv' & Hlab). congruence.
      * rewrite (Hout Hk), lookup_empty in Hv. discriminate.
Qed.

Lemma simulateMonth_outcome_witness :
  (currentMonth sample_sim < TOTAL_MONTHS)%nat /\
  exists actions s' g',
    simulateMonth economy sample_sim (constant_rng 0.5)
      = (Some actions, s', g') /\
    currentMonth s' = 1%nat.
Proof.
  assert (Hm : (currentMonth sample_sim < TOTAL_MONTHS)%nat)
    by (cbn; unfold TOTAL_MONTHS; lia).
  split; [exact Hm|].
  destruct (simulateMonth_outcome economy sample_sim (constant_rng 0.5))
    as [_ Hstep].
  destruct (Hstep Hm) as (actions & s' & g' & Heq & Hmonth & _).
  exists actions, s', g'. split; [exact Heq | exact Hmonth].
Defined.




(** X12. The timer chain stops at the horizon.  From month [m], [n]
    callbacks run [min n (TOTAL_MONTHS - m)] months: the emitted months
    are the consecutive months after [m], the month counter ends that
    much further and never passes [TOTAL_MONTHS] if it started below, the
    population keeps its names, and callbacks beyond the horizon change
    nothing. *)
Theorem simulate_horizon (econ : Economy) (n : nat) (s : Sim) (g : RNG) :
  let months := Nat.min n (TOTAL_MONTHS - currentMonth s) in
  let r := simulate econ n s g in
  map fst r.1.1 = seq (S (currentMonth s)) months /\
  currentMonth r.1.2 = (currentMonth s + months)%nat /\
  map name (agents r.1.2) = map name (agents s) /\
  (forall extra,
     (TOTAL_MONTHS - currentMonth s <= n)%nat ->
     simulate econ (n + extra) s g = r).
Proof.
  cbn zeta. revert s g. induction n as [|n IH]; intros s g.
  - cbn [simulate fst snd map]. rewrite Nat.min_0_l.
    split; [reflexivity|]. split; [lia|]. split; [reflexivity|].
    intros extra Hle. cbn [Nat.add].
    destruct extra as [|extra]; [reflexivity|]. cbn [simulate].
    rewrite simulateMonth_end by lia. reflexivity.
  - cbn [simulate Nat.add].
    pose proof (simulateMonth_month econ s g) as Hstep.
    destruct (Nat.le_gt_cases TOTAL_MONTHS (currentMonth s)) as [Hle|Hlt].
    + rewrite (simulateMonth_end econ s g Hle). cbn [fst snd map].
      replace (Nat.min (S n) (TOTAL_MONTHS - currentMonth s)) with 0%nat
        by lia.
      split; [reflexivity|]. split; [lia|]. split; reflexivity.
    + destruct (Hstep Hlt) as (actions & s' & g' & -> & Hmonth & _ & Hnames).
      destruct (IH s' g') as (IHm & IHc & IHn & IHx).
      destruct (simulate econ n s' g') as [[out s''] g''] eqn:Hsim.
      cbn [fst snd map] in *.
      replace (Nat.min (S n) (TOTAL_MONTHS - currentMonth s))
        with (S (Nat.min n (TOTAL_MONTHS - currentMonth s'))) by lia.
      split; [cbn [seq]; rewrite IHm, Hmonth; reflexivity|].
      split; [lia|]. split; [congruence|].
      intros extra Hle. rewrite IHx by lia. reflexivity.
Qed.

Lemma simulate_horizon_witness :
  (TOTAL_MONTHS - currentMonth initial_sim <= 60)%nat /\
  simulate economy (60 + 5) initial_sim (constant_rng 0.5)
    = simulate economy 60 initial_sim (constant_rng 0.5).
Proof.
  assert (Hle : (TOTAL_MONTHS - currentMonth initial_sim <= 60)%nat)
    by (cbn; unfold TOTAL_MONTHS; lia).
  split; [exact Hle|].
  apply (simulate_horizon economy 60 initial_sim (constant_rng 0.5)).
  exact Hle.
Defined.

(** ** The chart *)

Lemma push_net_worths_ok (ags : list Agent) (i : nat) (ds : list Dataset) :
  (i + length ags <= length ds)%nat ->
  exists ds',
    push_net_worths ags i ds = Normal ds' /\
    length ds' = length ds /\
    (forall j,
       ds' !! j =
         if decide (i <= j)%nat then
           match ags !! (j - i)%nat with
           | Some ai => push_point (netWorth ai) <$> ds !! j
           | None => ds !! j
           end
         else ds !! j).
Proof.
  revert i ds. induction ags as [|ai rest IH]; intros i ds Hlen.
  - exists ds. split; [reflexivity|]. split; [reflexivity|].
    intros j. rewrite lookup_nil. destruct (decide (i <= j)%nat); reflexivity.
  - cbn [length] in Hlen. cbn [push_net_worths].
    destruct (lookup_lt_is_Some_2 ds i) as [d Hd]; [lia|]. rewrite Hd.
    destruct (IH (S i) (<[i := push_point (netWorth ai) d]> ds))
      as (ds' & Heq & Hlen' & Hlook); [rewrite length_insert; lia|].
    exists ds'. split; [exact Heq|].
    split; [rewrite Hlen', length_insert; reflexivity|].
    intros j. rewrite Hlook.
    destruct (decide (S i <= j)%nat) as [Hj|Hj].
    + rewrite decide_True by lia.
      replace (j - i)%nat with (S (j - S i)) by lia. cbn [lookup].
      rewrite list_lookup_insert_ne by lia. reflexivity.
    + destruct (decide (i <= j)%nat) as [Hij|Hij].
      * assert (j = i) by lia. subst j.
        rewrite Nat.sub_diag. cbn [lookup].
        rewrite list_lookup_insert_eq by (apply lookup_lt_Some in Hd; lia).
        rewrite Hd. reflexivity.
      * rewrite list_lookup_insert_ne by lia. reflexivity.
Qed.

Lemma push_net_worths_throws (ags : list Agent) (i : nat) (ds : list Dataset) :
  (i <= length ds)%nat ->
  (length ds < i + length ags)%nat ->
  exists e, push_net_worths ags i ds = Throw e.
Proof.
  revert i ds. induction ags as [|ai rest IH]; intros i ds Hi Hlen.
  - cbn [length] in Hlen. lia.
  - cbn [length] in Hlen. cbn [push_net_worths].
    destruct (ds !! i) as [d|] eqn:Hd; [|eexists; reflexivity].
    apply lookup_lt_Some in Hd as Hlt.
    apply IH; rewrite length_insert; lia.
Qed.

(** X13. The chart part of [updateUI].  With at least one dataset per
    agent it completes: the label ["M" + month] is appended, every agent's
    dataset (by index) gets the agent's net worth as its new last point,
    and nothing else changes.  With fewer datasets than agents it throws,
    as reading [data] of a missing dataset does. *)
Theorem updateUI_chart_outcome (s : Sim) (chart : ChartData) :
  ((length (agents s) <= length (datasets chart))%nat ->
     exists chart',
       updateUI_chart s chart = Normal chart' /\
       labels chart' = labels chart ++ ["M" +:+ pretty (currentMonth s)] /\
       length (datasets chart') = length (datasets chart) /\
       (forall j d,
          datasets chart !! j = Some d ->
          datasets chart' !! j =
            Some match agents s !! j with
                 | Some ai => push_point (netWorth ai) d
                 | None => d
                 end)) /\
  ((length (datasets chart) < length (agents s))%nat ->
     exists e, updateUI_chart s chart = Throw e).
Proof.
  unfold updateUI_chart. split; intros Hlen.
  - destruct (push_net_worths_ok (agents s) 0 (datasets chart))
      as (ds' & Heq & Hlen' & Hlook); [lia|].
    rewrite Heq. eexists. split; [reflexivity|]. cbn [labels datasets].
    split; [reflexivity|]. split; [exact Hlen'|].
    intros j d Hd. rewrite Hlook, decide_True, Nat.sub_0_r, Hd by lia.
    destruct (agents s !! j); reflexivity.
  - destruct (push_net_worths_throws (agents s) 0 (datasets chart))
      as [e He]; [lia | lia |].
    rewrite He. exists e. reflexivity.
Qed.

Lemma updateUI_chart_outcome_witness :
  (length (agents initial_sim) <= length (datasets (new_chart agents0)))%nat /\
  exists chart',
    updateUI_chart initial_sim (new_chart agents0) = Normal chart' /\
    labels chart' = ["M0"%string].
Proof.
  assert (Hlen : (length (agents initial_sim)
                  <= length (datasets (new_chart agents0)))%nat)
    by (cbn; lia).
  split; [exact Hlen|].
  destruct (updateUI_chart_outcome initial_sim (new_chart agents0))
    as [Hok _].
  destruct (Hok Hlen) as (chart' & Heq & Hlab & _).
  exists chart'. split; [exact Heq | exact Hlab].
Defined.

Lemma chart_aligned_length (ags ags' : list Agent) (chart : ChartData) :
  length ags' = length ags ->
  chart_aligned ags chart -> chart_aligned ags' chart.
Proof. unfold chart_aligned. intros -> H. exact H. Qed.

(** On an aligned chart [updateUI] completes and leaves the chart aligned
    and current. *)
Lemma updateUI_chart_synced (s : Sim) (chart : ChartData) :
  chart_aligned (agents s) chart ->
  exists chart',
    updateUI_chart s chart = Normal chart' /\
    chart_aligned (agents s) chart' /\
    chart_current (agents s) chart' /\
    labels chart' = labels chart ++ ["M" +:+ pretty (currentMonth s)] /\
    map ds_label (datasets chart') = map ds_label (datasets chart).
Proof.
  intros [Hlen Hdata]. unfold updateUI_chart.
  destruct (push_net_worths_ok (agents s) 0 (datasets chart))
    as (ds' & Heq & Hlen' & Hlook); [lia|].
  rewrite Heq. eexists. split; [reflexivity|].
  assert (Hpoint : forall j ai d',
            agents s !! j = Some ai -> ds' !! j = Some d' ->
            exists d, datasets chart !! j = Some d /\
                      d' = push_point (netWorth ai) d).
  { intros j ai d' Hai Hd'.
    rewrite Hlook, decide_True, Nat.sub_0_r, Hai in Hd' by lia.
    destruct (datasets chart !! j) as [d|]; [|discriminate].
    exists d. split; [reflexivity|]. cbn in Hd'. congruence. }
  assert (Hagent : forall j d', ds' !! j = Some d' ->
                                exists ai, agents s !! j = Some ai).
  { intros j d' Hd'. apply lookup_lt_is_Some_2.
    apply lookup_lt_Some in Hd'. lia. }
  unfold chart_aligned, chart_current. cbn [labels datasets].
  split; [split; [lia|]|split; [|split; [reflexivity|]]].
  - apply Forall_lookup. intros j d' Hd'.
    destruct (Hagent j d' Hd') as [ai Hai].
    destruct (Hpoint j ai d' Hai Hd') as (d & Hd & ->).
    cbn [data push_point]. rewrite !length_app. cbn [length].
    rewrite Forall_lookup in Hdata. rewrite (Hdata j d Hd). reflexivity.
  - apply Forall2_same_length_lookup. split; [lia|].
    intros j ai d' Hai Hd'.
    destruct (Hpoint j ai d' Hai Hd') as (d & Hd & ->).
    cbn [data push_point]. apply last_snoc.
  - apply list_eq. intros j. rewrite !list_lookup_fmap.
    destruct (ds' !! j) as [d'|] eqn:Hd'.
    + destruct (Hagent j d' Hd') as [ai Hai].
      destruct (Hpoint j ai d' Hai Hd') as (d & Hd & ->).
      rewrite Hd. reflexivity.
    + apply lookup_ge_None in Hd'.
      rewrite (proj2 (lookup_ge_None (datasets chart) j)) by lia.
      reflexivity.
Qed.

(** X14. The chart stays in step with the simulation.  Started on a chart
    with one dataset per agent and one point per label (as [new Chart]
    builds it), the driver never fails in [updateUI]; it leaves the
    simulation exactly as the driver without the chart does; the chart
    keeps one point per label in every dataset, gains the labels
    ["M" + month] of the months run, keeps its dataset names, and, once a
    month has been run, the last point of each dataset is the current net
    worth of its agent. *)
Theorem simulate_chart_synced
    (econ : Economy) (n : nat) (s : Sim) (chart : ChartData) (g : RNG) :
  chart_aligned (agents s) chart ->
  (labels chart <> [] -> chart_current (agents s) chart) ->
  let r := simulate econ n s g in
  exists chart',
    simulate_chart econ n s chart g = Normal (r.1.2, chart', r.2) /\
    chart_aligned (agents r.1.2) chart' /\
    (labels chart' <> [] -> chart_current (agents r.1.2) chart') /\
    labels chart' =
      labels chart
      ++ map (fun out : nat * ActionMap => "M" +:+ pretty out.1) r.1.1 /\
    map ds_label (datasets chart') = map ds_label (datasets chart).
Proof.
  cbn zeta. revert s chart g.
  induction n as [|n IH]; intros s chart g Hal Hcur.
  - exists chart. cbn [simulate simulate_chart fst snd map].
    rewrite app_nil_r. split; [reflexivity|]. split; [exact Hal|].
    split; [exact Hcur|]. split; reflexivity.
  - cbn [simulate simulate_chart].
    destruct (Nat.le_gt_cases TOTAL_MONTHS (currentMonth s)) as [Hle|Hlt].
    + rewrite (simulateMonth_end econ s g Hle). exists chart.
      cbn [fst snd map]. rewrite app_nil_r.
      split; [reflexivity|]. split; [exact Hal|].
      split; [exact Hcur|]. split; reflexivity.
    + destruct (simulateMonth_month econ s g Hlt)
        as (actions & s' & g' & -> & Hmonth & _ & Hnames).
      assert (Hlen : length (agents s') = length (agents s))
        by (rewrite <- (length_map name), Hnames, length_map; reflexivity).
      destruct (updateUI_chart_synced s' chart
                  (chart_aligned_length _ _ _ Hlen Hal))
        as (chart1 & -> & Hal1 & Hcur1 & Hlab1 & Hds1).
      destruct (IH s' chart1 g' Hal1 (fun _ => Hcur1))
        as (chart' & Heq & Hal' & Hcur' & Hlab' & Hds').
      destruct (simulate econ n s' g') as [[out s''] g''].
      cbn [fst snd map] in *. exists chart'.
      split; [exact Heq|]. split; [exact Hal'|]. split; [exact Hcur'|].
      split; [|congruence].
      rewrite Hlab', Hlab1, <- app_assoc. reflexivity.
Qed.

Lemma chart_aligned_new_chart (ags : list Agent) :
  chart_aligned ags (new_chart ags).
Proof.
  unfold chart_aligned, new_chart. cbn [labels datasets].
  split; [apply length_map|].
  apply Forall_forall. intros d Hd. apply list_elem_of_fmap in Hd.
  destruct Hd as (ai & -> & _). reflexivity.
Qed.

Lemma simulate_chart_synced_witness :
  chart_aligned (agents initial_sim) (new_chart agents0) /\
  exists chart',
    simulate_chart economy 3 initial_sim (new_chart agents0)
      (constant_rng 0.5)
    = Normal ((simulate economy 3 initial_sim (constant_rng 0.5)).1.2,
              chart',
              (simulate economy 3 initial_sim (constant_rng 0.5)).2).
Proof.
  pose proof (chart_aligned_new_chart agents0) as Hal.
  split; [exact Hal|].
  destruct (simulate_chart_synced economy 3 initial_sim (new_chart agents0)
              (constant_rng 0.5) Hal) as (chart' & Heq & _).
  - intros Hne. contradiction Hne. reflexivity.
  - exists chart'. exact Heq.
Defined.

(** ** The event model without a recession, and what no event does *)

(** X15. Without a recession the bands of [randomEvents] are disjoint:
    the agent loses the job (and gains 20 stress) exactly when the draw is
    below 0.03, pays the 2000 expense exactly when the draw is in
    [0.03, 0.06), and is left alone from 0.06 on; the recession branch
    never fires. *)
Theorem randomEvents_bands_without_recession
    (econ : Economy) (ai : Agent) (g : RNG) :
  recession econ = false ->
  let r := g 0%nat in
  let ai' := (randomEvents econ ai g).1 in
  fired_branch econ r <> RecessionJobLoss /\
  (r < 0.03 ->
     ai' = set_stress (stress ai + 20) (set_employed false ai)) /\
  (0.03 <= r -> r < 0.06 -> ai' = set_cash (cash ai - 2000) ai) /\
  (0.06 <= r -> ai' = ai).
Proof.
  intros Hrec r ai'. subst r ai'. rewrite randomEvents_fired.
  unfold fired_branch. rewrite Hrec. cbn [andb].
  generalize (g 0%nat). intros r.
  destruct (Qltb r 0.03) eqn:E3; [|destruct (Qltb r 0.06) eqn:E6]; qbool;
    (split; [discriminate|]); repeat split; intros; try reflexivity; lra.
Qed.

Lemma randomEvents_bands_without_recession_witness :
  recession {| recession := false |} = false /\
  (randomEvents {| recession := false |} veteran (constant_rng 0.05)).1
    = set_cash (cash veteran - 2000) veteran.
Proof.
  split; [reflexivity|].
  apply (randomEvents_bands_without_recession {| recession := false |}
           veteran (constant_rng 0.05));
    [reflexivity | |]; unfold constant_rng; lra.
Defined.

(** X16. An event never helps.  Whatever the economy and the draw,
    [randomEvents] never gives a job back, never adds cash and never
    lowers stress; it changes cash or employment, never both. *)
Theorem randomEvents_never_helps (econ : Economy) (ai : Agent) (g : RNG) :
  let ai' := (randomEvents econ ai g).1 in
  (employed ai' = true -> employed ai = true) /\
  cash ai' <= cash ai /\
  stress ai <= stress ai' /\
  (cash ai' = cash ai \/
   employed ai' = employed ai /\ stress ai' = stress ai).
Proof.
  cbn zeta. rewrite randomEvents_fired.
  destruct (fired_branch econ (g 0%nat)); cbn;
    repeat split; auto; try discriminate; lra.
Qed.

Lemma randomEvents_never_helps_witness :
  employed (randomEvents economy founder (constant_rng 0.5)).1 = true /\
  employed founder = true.
Proof.
  assert (He : employed (randomEvents economy founder (constant_rng 0.5)).1
               = true) by (vm_compute; reflexivity).
  split; [exact He|].
  apply (randomEvents_never_helps economy founder (constant_rng 0.5)), He.
Defined.

(** ** When the choice is certain *)

(** For an unemployed agent with a runway between −1 and 17 months, the
    score of [job_search] exceeds every other score. *)
Lemma job_search_dominates (ai : Agent) (g : RNG) :
  employed ai = false ->
  ~ fixed_costs ai == 0 ->
  traits_in_range ai ->
  uniform g ->
  -1 <= cash ai / fixed_costs ai ->
  cash ai / fixed_costs ai <= 17 ->
  let sc := (jittered_scores ai g).1 in
  forall a, a <> job_search -> (sc job_search > sc a)%js = true.
Proof.
  intros Hemp Hnz [[Hr0 Hr1] [Hd0 Hd1]] Hg Hlo Hhi sc a Ha. unfold sc.
  rewrite !jittered_scores_at. unfold base_scores.
  rewrite (getContext_finite ai Hnz), Hemp.
  revert Hlo Hhi. generalize (cash ai / fixed_costs ai). intros em Hlo Hhi.
  destruct (jitter_range _ (proj1 (Hg 0%nat)) (proj2 (Hg 0%nat))).
  destruct (jitter_range _ (proj1 (Hg 1%nat)) (proj2 (Hg 1%nat))).
  destruct (jitter_range _ (proj1 (Hg 2%nat)) (proj2 (Hg 2%nat))).
  destruct (jitter_range _ (proj1 (Hg 3%nat)) (proj2 (Hg 3%nat))).
  destruct a; [| | |congruence];
    cbn [position JS.add JS.sub JS.mul JS.gt JS.neg negb].
  - qbool. lra.
  - destruct (Qltb 3 em);
      cbn [position JS.add JS.sub JS.mul JS.gt JS.neg]; qbool; lra.
  - destruct (Qltb 5000 (cash ai) && negb (truthy (business ai)));
      cbn [position JS.add JS.sub JS.mul JS.gt JS.neg]; qbool; lra.
Qed.

Lemma unemployed_picks_job_search (ai : Agent) (g : RNG) :
  employed ai = false ->
  ~ fixed_costs ai == 0 ->
  traits_in_range ai ->
  uniform g ->
  -1 <= cash ai / fixed_costs ai ->
  cash ai / fixed_costs ai <= 17 ->
  (decisionEngine ai g).1.1 = job_search.
Proof.
  intros Hemp Hnz Htr Hg Hlo Hhi.
  rewrite decisionEngine_unfold. cbn zeta. cbn [fst snd].
  apply pick_best_dominant.
  apply (job_search_dominates ai g Hemp Hnz Htr Hg Hlo Hhi).
Qed.

(** X17. An unemployed agent whose runway lies between −1 and 17 months
    (traits in [0,1], draws in [0,1)) always chooses [job_search], and is
    employed after the decision.  Above 17 months [invest] can outscore
    the fixed 100 of [job_search], below −1 [save] can. *)
Theorem decisionEngine_unemployed_searches (ai : Agent) (g : RNG) :
  employed ai = false ->
  ~ fixed_costs ai == 0 ->
  traits_in_range ai ->
  uniform g ->
  -1 <= cash ai / fixed_costs ai ->
  cash ai / fixed_costs ai <= 17 ->
  (decisionEngine ai g).1.1 = job_search /\
  employed (decisionEngine ai g).1.2 = true.
Proof.
  intros Hemp Hnz Htr Hg Hlo Hhi.
  pose proof (unemployed_picks_job_search ai g Hemp Hnz Htr Hg Hlo Hhi)
    as Hpick.
  split; [exact Hpick|].
  rewrite decisionEngine_executes, Hpick. reflexivity.
Qed.

Lemma decisionEngine_unemployed_searches_witness :
  employed veteran = false /\
  (decisionEngine veteran (constant_rng 0.5)).1.1 = job_search.
Proof.
  split; [reflexivity|].
  apply (decisionEngine_unemployed_searches veteran (constant_rng 0.5));
    [ reflexivity | cbn; discriminate | exact traits_veteran
    | exact uniform_constant_half | | ];
    vm_compute; discriminate.
Defined.

(** X18. An employed agent with at most three months of runway that
    cannot found a business (cash at most 5000, or a business already)
    always chooses [save], and the decision leaves the agent as it is. *)
Theorem decisionEngine_low_runway_saves (ai : Agent) (g : RNG) :
  employed ai = true ->
  ~ fixed_costs ai == 0 ->
  traits_in_range ai ->
  uniform g ->
  cash ai / fixed_costs ai <= 3 ->
  cash ai <= 5000 \/ truthy (business ai) = true ->
  (decisionEngine ai g).1.1 = save /\
  (decisionEngine ai g).1.2 = ai.
Proof.
  intros Hemp Hnz [[Hr0 Hr1] [Hd0 Hd1]] Hg Hrunway Hnobiz.
  assert (Hpick : (decisionEngine ai g).1.1 = save).
  { rewrite decisionEngine_unfold. cbn zeta. cbn [fst snd].
    apply pick_best_dominant. intros a Ha.
    rewrite !jittered_scores_at. unfold base_scores.
    rewrite (getContext_finite ai Hnz), Hemp.
    assert (Hsb : Qltb 5000 (cash ai) && negb (truthy (business ai)) = false).
    { destruct Hnobiz as [Hc|Hb].
      - assert (Hf : Qltb 5000 (cash ai) = false) by (qbool; exact Hc).
        rewrite Hf. reflexivity.
      - rewrite Hb. apply andb_false_r. }
    rewrite Hsb.
    assert (Hinv : Qltb 3 (cash ai / fixed_costs ai) = false)
      by (qbool; exact Hrunway).
    revert Hrunway Hinv. generalize (cash ai / fixed_costs ai).
    intros em Hrunway Hinv.
    destruct (jitter_range _ (proj1 (Hg 0%nat)) (proj2 (Hg 0%nat))).
    destruct (jitter_range _ (proj1 (Hg 1%nat)) (proj2 (Hg 1%nat))).
    destruct (jitter_range _ (proj1 (Hg 2%nat)) (proj2 (Hg 2%nat))).
    destruct (jitter_range _ (proj1 (Hg 3%nat)) (proj2 (Hg 3%nat))).
    destruct a; [congruence| | |];
      cbn [position JS.add JS.sub JS.mul JS.gt JS.neg negb];
      rewrite ?Hinv;
      cbn [position JS.add JS.sub JS.mul JS.gt JS.neg negb];
      qbool; lra. }
  split; [exact Hpick|].
  rewrite decisionEngine_executes, Hpick. reflexivity.
Qed.

Lemma decisionEngine_low_runway_saves_witness :
  employed founder = true /\
  (decisionEngine founder (constant_rng 0.5)).1.1 = save.
Proof.
  split; [vm_compute; reflexivity|].
  apply (decisionEngine_low_runway_saves founder (constant_rng 0.5));
    [ vm_compute; reflexivity | vm_compute; discriminate
    | exact traits_founder | exact uniform_constant_half
    | vm_compute; discriminate | left; vm_compute; discriminate ].
Defined.

(** ** No bankruptcy under a recession *)

Lemma static_part_salary (ai ai' : Agent) :
  static_part ai' = static_part ai -> salary ai' = salary ai.
Proof. unfold static_part. intros H. injection H. auto. Qed.

(** One month under a recession, from a solvent state with the costs and
    salary of [createAI]: the month ends solvent, and with at least one
    month of costs in cash if it ends unemployed. *)
Lemma recession_month_solvent (econ : Economy) (ai : Agent) (g : RNG) :
  recession econ = true ->
  uniform g ->
  traits_in_range ai ->
  fixed_costs ai = 800 + 400 + 300 ->
  salary ai = 2000 ->
  sideHustle ai = false ->
  business ai = None \/ business ai = Some {| revenue := 1000 |} ->
  0 <= cash ai ->
  (employed ai = false -> 1500 <= cash ai) ->
  let ai' := (runMonth econ ai g).1.2 in
  0 <= cash ai' /\ (employed ai' = false -> 1500 <= cash ai').
Proof.
  intros Hrec Hg Htr Hcosts Hsal Hside Hbus Hcash Hjobless. cbn zeta.
  assert (Hmid : 0 <= cash (decision_state econ ai g).1).
  { rewrite decision_state_cash, Hside, Hcosts, Hsal.
    rewrite (fired_branch_recession _ _ Hrec).
    destruct (Qltb (g 0%nat) 0.08), (employed ai);
      try specialize (Hjobless eq_refl);
      destruct Hbus as [-> | ->]; cbn [revenue]; lra. }
  destruct (decision_state_frame econ ai g) as (Hs2 & _).
  destruct (static_part_fields _ _ Hs2) as (_ & Hc2 & _).
  pose proof (static_part_traits _ _ Hs2 Htr) as Htr2.
  pose proof (decision_state_uniform econ ai g Hg) as Hg2.
  destruct (runMonth_result econ ai g) as (_ & Hcash' & _ & Hemp' & _).
  rewrite Hcash', Hemp'. clear Hcash' Hemp' Hs2.
  rewrite Hcosts in Hc2.
  generalize dependent (decision_state econ ai g). intros [a2 g2].
  cbn [fst snd]. intros Hmid Hc2 Htr2 Hg2.
  assert (Hnz : ~ fixed_costs a2 == 0) by (rewrite Hc2; discriminate).
  pose proof (start_business_guard a2 g2 Hnz Htr2 Hg2) as Hsb.
  pose proof (fun He => unemployed_picks_job_search a2 g2 He Hnz Htr2 Hg2)
    as Hjs.
  rewrite Hc2 in Hjs.
  assert (Hdiv : cash a2 == cash a2 / (800 + 400 + 300) * 1500)
    by (field; discriminate).
  revert Hjs Hdiv. generalize (cash a2 / (800 + 400 + 300)).
  intros em Hjs Hdiv.
  assert (Hrich : employed a2 = false ->
                  (decisionEngine a2 g2).1.1 <> job_search -> 17 < em).
  { intros Hemp Hne. destruct (Qlt_le_dec 17 em) as [Hgt|Hle]; [exact Hgt|].
    exfalso. apply Hne, (Hjs Hemp); lra. }
  destruct (decisionEngine a2 g2).1.1 eqn:Hact; cbn.
  - split; [exact Hmid|]. intros Hemp.
    specialize (Hrich Hemp ltac:(discriminate)). lra.
  - split; [lra|]. intros Hemp.
    specialize (Hrich Hemp ltac:(discriminate)). lra.
  - destruct (Hsb eq_refl) as [Hfive _]. split; [lra|]. intros Hemp.
    specialize (Hrich Hemp ltac:(discriminate)). lra.
  - split; [exact Hmid | discriminate].
Qed.

(** The invariant of the reachable states under a recession. *)
Lemma recession_invariant (econ : Economy) (ai : Agent) :
  recession econ = true ->
  reachable econ ai ->
  traits_in_range ai ->
  alive ai = true /\ 0 <= cash ai /\ (employed ai = false -> 1500 <= cash ai).
Proof.
  intros Hrec Hreach Htr. destruct Hreach as (nm & rt & d & i & col & Hev).
  induction Hev as [|ai' g Hev IH Hal Hg].
  - cbn. split; [reflexivity|]. split; [lra | discriminate].
  - assert (Hreach' : reachable econ ai')
      by (exists nm, rt, d, i, col; exact Hev).
    destruct (runMonth_frame econ ai' g) as (Hst' & _ & Halive & _).
    assert (Htr' : traits_in_range ai')
      by (apply (static_part_traits _ _ (eq_sym Hst')), Htr).
    destruct (IH Htr') as (_ & Hcash & Hjobless).
    pose proof (evolves_static _ _ _ Hev) as Hst0.
    destruct (static_part_fields _ _ Hst0) as (_ & _ & _ & _ & Hside).
    destruct (recession_month_solvent econ ai' g Hrec Hg Htr'
                (reachable_fixed_costs econ ai' Hreach')
                (static_part_salary _ _ Hst0) Hside
                (reachable_business econ ai' Hreach') Hcash Hjobless)
      as [Hcash' Hjobless'].
    split; [|split; assumption].
    rewrite Halive, Hal.
    destruct (Qltb (cash (runMonth econ ai' g).1.2) 0) eqn:Hneg;
      [qbool; lra | reflexivity].
Qed.

(** X19. Under a recession nobody goes bankrupt.  With the recession
    flag set (as the script ships it) the unexpected expense never fires,
    and with traits in [0,1] no action overdraws the account: every
    reachable agent is alive, with non-negative cash, and has at least
    1500 in cash whenever it is unemployed. *)
Theorem recession_no_bankruptcy (econ : Economy) (ai : Agent) :
  recession econ = true ->
  reachable econ ai ->
  traits_in_range ai ->
  alive ai = true /\ 0 <= cash ai /\ (employed ai = false -> 1500 <= cash ai).
Proof. apply recession_invariant. Qed.

Lemma recession_no_bankruptcy_witness :
  recession economy = true /\ reachable economy founder /\
  traits_in_range founder /\ alive founder = true.
Proof.
  split; [reflexivity|]. split; [exact reachable_founder|].
  split; [exact traits_founder|].
  apply (recession_no_bankruptcy economy founder eq_refl
           reachable_founder traits_founder).
Defined.

Lemma simulateAgent_traits
    (econ : Economy) (ai : Agent) (actions : ActionMap) (g : RNG) :
  traits_in_range ai ->
  traits_in_range (simulateAgent econ ai actions g).1.1.
Proof.
  intros Htr. unfold simulateAgent. destruct (alive ai); [|exact Htr].
  pose proof (runMonth_frame econ ai g) as (Hst & _).
  destruct (runMonth econ ai g) as [[act ai'] g']. cbn [fst snd] in *.
  apply (static_part_traits _ _ Hst Htr).
Qed.

Lemma forEach_agent_traits
    (econ : Economy) (ags : list Agent) (actions : ActionMap) (g : RNG) :
  Forall traits_in_range ags ->
  Forall traits_in_range (forEach_agent econ ags actions g).1.1.
Proof.
  revert actions g. induction ags as [|ai rest IH]; intros actions g Hall;
    [constructor|].
  apply Forall_cons in Hall as [Hai Hrest]. cbn [forEach_agent].
  pose proof (simulateAgent_traits econ ai actions g Hai) as Htr.
  destruct (simulateAgent econ ai actions g) as [[ai' actions'] g'].
  specialize (IH actions' g' Hrest).
  destruct (forEach_agent econ rest actions' g') as [[rest' actions''] g''].
  cbn [fst snd] in *. constructor; assumption.
Qed.

(** When every agent is alive, the [forEach] writes action labels only. *)
Lemma forEach_agent_all_alive
    (econ : Economy) (ags : list Agent) (actions : ActionMap) (g : RNG)
    (k v : string) :
  Forall (fun ai => alive ai = true) ags ->
  (forEach_agent econ ags actions g).1.2 !! k = Some v ->
  actions !! k = Some v \/ exists a, v = label a.
Proof.
  revert actions g. induction ags as [|ai rest IH]; intros actions g Hall Hv;
    [left; exact Hv|].
  apply Forall_cons in Hall as [Hai Hrest]. cbn [forEach_agent] in Hv.
  unfold simulateAgent in Hv. rewrite Hai in Hv.
  destruct (runMonth econ ai g) as [[act ai'] g'].
  specialize (IH (<[name ai := label act]> actions) g' Hrest).
  destruct (forEach_agent econ rest _ g') as [[rest' actions''] g''].
  cbn [fst snd] in *. destruct (IH Hv) as [Hin|Hlab]; [|right; exact Hlab].
  destruct (decide (name ai = k)) as [<-|Hne].
  - rewrite lookup_insert_eq in Hin. right. exists act. congruence.
  - rewrite lookup_insert_ne in Hin by exact Hne. left. exact Hin.
Qed.

(** X20. Under a recession the driver never shows ["BANKRUPT"].  From a
    population of reachable agents with traits in [0,1] (the population of
    the script is one), with the recession flag set and draws in [0,1),
    every agent is alive after any number of months and every entry of
    every emitted action map is the label of an action. *)
Theorem recession_never_shows_bankrupt
    (econ : Economy) (n : nat) (s : Sim) (g : RNG) :
  recession econ = true ->
  Forall (reachable econ) (agents s) ->
  Forall traits_in_range (agents s) ->
  uniform g ->
  let r := simulate econ n s g in
  Forall (fun ai => alive ai = true) (agents r.1.2) /\
  Forall (fun out : nat * ActionMap =>
            forall k v, out.2 !! k = Some v ->
                        (exists a, v = label a) /\ v <> "BANKRUPT"%string)
    r.1.1.
Proof.
  intros Hrec. cbn zeta. revert s g.
  assert (Halive : forall ags,
            Forall (reachable econ) ags -> Forall traits_in_range ags ->
            Forall (fun ai => alive ai = true) ags).
  { intros ags Hr Ht. apply Forall_forall. intros ai Hin.
    rewrite Forall_forall in Hr, Ht.
    apply (recession_invariant econ ai Hrec (Hr ai Hin) (Ht ai Hin)). }
  induction n as [|n IH]; intros s g Hreach Htr Hg.
  - cbn [simulate fst snd]. split; [apply Halive; assumption | constructor].
  - cbn [simulate]. unfold simulateMonth.
    destruct (TOTAL_MONTHS <=? currentMonth s)%nat.
    + cbn [fst snd]. split; [apply Halive; assumption | constructor].
    + destruct (forEach_agent_reachable econ (agents s) ∅ g Hreach Hg)
        as [Hreach' Hg'].
      pose proof (forEach_agent_traits econ (agents s) ∅ g Htr) as Htr'.
      pose proof (fun k v =>
                    forEach_agent_all_alive econ (agents s) ∅ g k v
                      (Halive _ Hreach Htr)) as Hlab.
      destruct (forEach_agent econ (agents s) ∅ g) as [[ags actions] g'].
      cbn [fst snd] in *.
      specialize (IH {| currentMonth := S (currentMonth s); agents := ags |}
                    g' Hreach' Htr' Hg').
      destruct (simulate econ n _ g') as [[out s''] g''].
      cbn [fst snd] in *. destruct IH as [IHa IHo].
      split; [exact IHa|]. constructor; [|exact IHo].
      cbn [snd]. intros k v Hv.
      destruct (Hlab k v Hv) as [Hempty|[a ->]];
        [rewrite lookup_empty in Hempty; discriminate|].
      split; [exists a; reflexivity | apply label_not_bankrupt].
Qed.

Lemma recession_never_shows_bankrupt_witness :
  recession economy = true /\
  Forall (fun ai => alive ai = true)
    (agents (simulate economy 3 initial_sim (constant_rng 0.5)).1.2).
Proof.
  split; [reflexivity|].
  assert (Hreach : Forall (reachable economy) (agents initial_sim))
    by (repeat apply Forall_cons_2; try apply Forall_nil_2;
        eexists _, _, _, _, _; apply evolves_refl).
  assert (Htr : Forall traits_in_range (agents initial_sim))
    by (repeat apply Forall_cons_2; try apply Forall_nil_2;
        unfold traits_in_range; cbn; lra).
  destruct (recession_never_shows_bankrupt economy 3 initial_sim
              (constant_rng 0.5) eq_refl Hreach Htr uniform_constant_half)
    as [Halive _].
  exact Halive.
Defined.
